(** * The door-access security controller (app/app.py, app/telegram.py)

    A shallow embedding of [SecuritySystem]: the five-state machine, its three
    [threading.Timer] handles, the MQTT message router and the Telegram
    notifier, followed by the properties of the specification.

    Conventions of the embedding
    - a handler is a computation in a small state-and-exception monad over
      [Sys]; a Python exception that leaves the handler is a [Raised] outcome,
      and what the handler did to the object before raising is kept;
    - the outside world (MQTT broker, Telegram HTTP API, the logging module)
      is an append-only trace of [Effect]s; whether a transport call raises is
      the environment's answer, a function of the trace so far;
    - [threading.Timer] objects live in a table indexed by creation order; a
      timer thread takes two steps, [EvExpire] (the wait ended and the
      [finished] flag was found clear) and [EvCall] (the callback body), so a
      cancel that lands between the two is the stale firing of the spec;
    - handler bodies are taken as atomic (no interleaving inside a body). *)

From Stdlib Require Import ZArith String Ascii Bool SpecFloat.
From stdpp Require Import base tactics option list.

Local Open Scope string_scope.
Local Open Scope list_scope.

(** ** Python values produced by [json.loads] *)

Module Py.

#[warnings="-register-all"]
Inductive json : Type :=
| JNull
| JBool (b : bool)
| JInt (n : Z)
| JFloat (f : spec_float)
| JStr (s : string)
| JArr (items : list json)
| JObj (fields : list (string * json)).

Inductive Exn : Type := TypeError | KeyError | AttributeError.

(** [d[k]] on a dict kept as an association list. *)
Fixpoint assoc {A} (k : string) (d : list (string * A)) : option A :=
  match d with
  | [] => None
  | (k', v) :: rest => if String.eqb k k' then Some v else assoc k rest
  end.

(** [bool(v)] *)
Definition truthy (v : json) : bool :=
  match v with
  | JNull => false
  | JBool b => b
  | JInt n => negb (Z.eqb n 0)
  | JFloat f => match f with S754_zero _ => false | _ => true end
  | JStr s => negb (String.eqb s "")
  | JArr l => match l with [] => false | _ => true end
  | JObj d => match d with [] => false | _ => true end
  end.

(** [v == s] for a [str] literal [s]: only a [str] can be equal to it. *)
Definition eq_str (v : json) (s : string) : bool :=
  match v with
  | JStr s' => String.eqb s' s
  | _ => false
  end.

(** [k in s] on two [str]: substring test. *)
Fixpoint substring_of (k s : string) : bool :=
  String.prefix k s ||
  match s with
  | EmptyString => false
  | String _ s' => substring_of k s'
  end.

(** [k in v] for a [str] key [k]; [None], numbers and booleans are not
    iterable. *)
Definition contains (k : string) (v : json) : Exn + bool :=
  match v with
  | JObj d => inr (bool_decide (is_Some (assoc k d)))
  | JStr s => inr (substring_of k s)
  | JArr l => inr (existsb (fun x => eq_str x k) l)
  | _ => inl TypeError
  end.

(** [v[k]] for a [str] key [k]. *)
Definition getitem (v : json) (k : string) : Exn + json :=
  match v with
  | JObj d => match assoc k d with
              | Some x => inr x
              | None => inl KeyError
              end
  | _ => inl TypeError
  end.

End Py.
Export Py.

(** ** Configuration, taken from the process environment at import time *)

Record Config : Type := mkConfig {
  DOOR_TOPIC : string;
  ACCESS_TOPIC : string;
  ACCESS_TOPIC_STATUS : string;
  ACCESS_COMMAND : string;
  ACCESS_BUTTON : string;
  ACCESS_BUTTON_PAYLOAD : string;
  TRIGGER_TIME : Z;
  TELEGRAM_TOKEN : string;
  TELEGRAM_CHATID : string;
  (** the array read from users.json by [load_users] *)
  ALLOWED_USERS : list json
}.

(** Duration of the alarm signal before resetting to armed mode. *)
Definition ALARM_DURATION (cfg : Config) : Z := TRIGGER_TIME cfg.

(** ** The object, its timers and the trace of effects *)

Inductive SystemState : Type :=
| disarmed | armed | button_pending | trigger_pending | alarm.

Definition state_name (st : SystemState) : string :=
  match st with
  | disarmed => "disarmed"
  | armed => "armed"
  | button_pending => "button_pending"
  | trigger_pending => "trigger_pending"
  | alarm => "alarm"
  end.

#[global] Instance SystemState_eq_dec : EqDecision SystemState.
Proof. solve_decision. Defined.

(** The bound methods handed to [threading.Timer]. *)
Inductive Callback : Type := cb_trigger_alarm | cb_end_button_timer | cb_reset_alarm.

#[global] Instance Callback_eq_dec : EqDecision Callback.
Proof. solve_decision. Defined.

(** Where a timer thread is in [Timer.run]: still in [finished.wait], past
    the [finished.is_set()] test and about to call, or returned. *)
Inductive Phase : Type := Waiting | Committed | Done.

#[global] Instance Phase_eq_dec : EqDecision Phase.
Proof. solve_decision. Defined.

Record Timer : Type := mkTimer {
  interval : Z;
  function : Callback;
  finished : bool;
  phase : Phase
}.

Definition dict : Type := list (string * string).

Inductive Level : Type := DEBUG | INFO | WARNING | ERROR.

Inductive LogArg : Type :=
| AStr (s : string)
| AInt (n : Z)
| AJson (v : json)
| ADict (d : dict)
| AState (st : SystemState)
| AExn (e : string).

Inductive Effect : Type :=
| Log (lvl : Level) (fmt : string) (args : list LogArg)
| MqttPublish (topic : string) (payload : dict)
| HttpPost (url : string) (payload : dict)
| TimerStarted (id : nat)
| TimerCancelled (id : nat).

Record Sys : Type := mkSys {
  system_state : SystemState;
  trigger_timer : option nat;
  button_timer : option nat;
  alarm_timer : option nat;
  timers : list Timer;
  trace : list Effect
}.

(** [requests.Response], as far as the notifier looks at it. *)
Record Response : Type := mkResponse { status_code : Z; response_text : string }.

(** What the collaborators answer; each sees the trace up to its call. *)
Record Env : Type := mkEnv {
  (** [str.lower] *)
  str_lower : string -> string;
  (** [Some e]: [mqtt_client.publish] raises *)
  publish_outcome : list Effect -> option string;
  (** [inl e]: [requests.post] raises *)
  post_outcome : list Effect -> string + Response
}.

(** A message as [on_message] sees it: the topic and what
    [json.loads(msg.payload.decode("utf-8"))] makes of the payload. *)
Inductive Decoded : Type :=
| Undecodable (err : string)
| Decodes (data : json).

Record Message : Type := mkMessage { topic : string; payload : Decoded }.

(** ** The handler monad *)

Inductive Raised : Type :=
| PyExn (e : Exn)
| TransportExn (e : string).

Definition M (A : Type) : Type := Sys -> Sys * (Raised + A).

Definition ret {A} (a : A) : M A := fun s => (s, inr a).

Definition bind {A B} (c : M A) (k : A -> M B) : M B :=
  fun s => match c s with
           | (s', inr a) => k a s'
           | (s', inl e) => (s', inl e)
           end.

Definition raise {A} (e : Raised) : M A := fun s => (s, inl e).

(** [try: body / except Exception as e: handler(e)] *)
Definition try_except {A} (body : M A) (handler : Raised -> M A) : M A :=
  fun s => match body s with
           | (s', inr a) => (s', inr a)
           | (s', inl e) => handler e s'
           end.

Definition lift {A} (r : Exn + A) : M A :=
  match r with
  | inl e => raise (PyExn e)
  | inr a => ret a
  end.

Definition get_state : M SystemState := fun s => (s, inr (system_state s)).

Definition emit (e : Effect) : M unit :=
  fun s => (mkSys (system_state s) (trigger_timer s) (button_timer s)
                  (alarm_timer s) (timers s) (trace s ++ [e]), inr tt).

Definition logging (lvl : Level) (fmt : string) (args : list LogArg) : M unit :=
  emit (Log lvl fmt args).

Notation "'let*' x ':=' c 'in' k" := (bind c (fun x => k))
  (at level 10, x name, c at level 100, k at level 200).
Notation "'do' c 'then' k" := (bind c (fun _ => k))
  (at level 10, c at level 100, k at level 200).

(** The state after a handler ran, and how it ended. *)
Definition after {A} (c : M A) (s : Sys) : Sys := fst (c s).
Definition outcome {A} (c : M A) (s : Sys) : Raised + A := snd (c s).

(** Attribute assignments on [self]. *)
Definition set_system_state (st : SystemState) : M unit :=
  fun s => (mkSys st (trigger_timer s) (button_timer s) (alarm_timer s)
                  (timers s) (trace s), inr tt).
Definition set_trigger_timer (h : option nat) : M unit :=
  fun s => (mkSys (system_state s) h (button_timer s) (alarm_timer s)
                  (timers s) (trace s), inr tt).
Definition set_button_timer (h : option nat) : M unit :=
  fun s => (mkSys (system_state s) (trigger_timer s) h (alarm_timer s)
                  (timers s) (trace s), inr tt).
Definition set_alarm_timer (h : option nat) : M unit :=
  fun s => (mkSys (system_state s) (trigger_timer s) (button_timer s) h
                  (timers s) (trace s), inr tt).
Definition set_timers (ts : list Timer) : M unit :=
  fun s => (mkSys (system_state s) (trigger_timer s) (button_timer s)
                  (alarm_timer s) ts (trace s), inr tt).

(** ** [threading.Timer] *)

(** [t = threading.Timer(interval, function); t.start()]: a new object, named
    by its index in the table. *)
Definition Timer_start (delay : Z) (f : Callback) : M nat :=
  fun s =>
    let id := length (timers s) in
    (mkSys (system_state s) (trigger_timer s) (button_timer s) (alarm_timer s)
           (timers s ++ [mkTimer delay f false Waiting])
           (trace s ++ [TimerStarted id]), inr id).

Definition set_finished (t : Timer) : Timer :=
  mkTimer (interval t) (function t) true (phase t).

Definition set_phase (p : Phase) (t : Timer) : Timer :=
  mkTimer (interval t) (function t) (finished t) p.

(** [t.cancel()]: sets the [finished] flag, whatever the thread is doing. *)
Definition Timer_cancel (id : nat) : M unit :=
  fun s =>
    (mkSys (system_state s) (trigger_timer s) (button_timer s) (alarm_timer s)
           (alter set_finished id (timers s))
           (trace s ++ [TimerCancelled id]), inr tt).

(** ** telegram.py *)

Section Telegram.
Variable env : Env.

(** [requests.post(url, json=payload)] *)
Definition requests_post (url : string) (payload : dict) : M Response :=
  do emit (HttpPost url payload) then
  fun s => match post_outcome env (trace s) with
           | inl e => (s, inl (TransportExn e))
           | inr r => (s, inr r)
           end.

Definition telegram_send_message (chat_id token text : string) : M Response :=
  let url := ("https://api.telegram.org/bot" ++ token ++ "/sendMessage")%string in
  let payload := [("chat_id", chat_id); ("text", text)] in
  let* r := requests_post url payload in
  ret r.
End Telegram.

(** ** app.py: class SecuritySystem *)

Section SecuritySystem.
Variable cfg : Config.
Variable env : Env.

Definition LED_DISARMED : dict :=
  [("power1", "on"); ("power2", "off"); ("buzzer", "1,1,1,1")].
Definition LED_ARMED : dict :=
  [("power1", "off"); ("power2", "on"); ("buzzer", "1,1,1,1")].
Definition LED_BUTTON_PENDING : dict :=
  [("power1", "off"); ("power2", "blink"); ("buzzer", "1,1,1,1")].
Definition LED_TRIGGER_PENDING : dict :=
  [("power1", "blink"); ("power2", "on"); ("buzzer", "1,1,1,1")].
Definition LED_ALARM : dict :=
  [("power1", "blink"); ("power2", "blink"); ("buzzer", "1,1,1,1")].

Definition __init__ : Sys := mkSys disarmed None None None [] [].

(** [self.mqtt_client.publish(topic, json.dumps(d))]; the payload is kept
    as the dict handed to [json.dumps]. *)
Definition mqtt_publish (tp : string) (d : dict) : M unit :=
  do emit (MqttPublish tp d) then
  fun s => match publish_outcome env (trace s) with
           | Some e => (s, inl (TransportExn e))
           | None => (s, inr tt)
           end.

Definition exn_text (e : Raised) : string :=
  match e with
  | PyExn TypeError => "TypeError"
  | PyExn KeyError => "KeyError"
  | PyExn AttributeError => "AttributeError"
  | TransportExn t => t
  end.

Definition set_state (new_state : SystemState) : M unit :=
  let* old := get_state in
  do logging INFO "Status change: %s -> %s" [AState old; AState new_state] then
  set_system_state new_state.

Definition send_led_command (command_dict : dict) : M unit :=
  try_except
    (do mqtt_publish (ACCESS_COMMAND cfg) command_dict then
     logging DEBUG "LED command sent: %s" [ADict command_dict])
    (fun e => logging ERROR "Error sending LED command: %s" [AExn (exn_text e)]).

(** The dict that [publish_system_state] serialises. *)
Definition state_msg (st : SystemState) : dict :=
  if existsb (String.eqb (state_name st)) ["armed"; "trigger_pending"; "alarm"]
  then [("system", "armed")]
  else if existsb (String.eqb (state_name st)) ["disarmed"; "button_pending"]
  then [("system", "disarmed")]
  else [].

Definition publish_system_state : M unit :=
  let* st := get_state in
  let msg := state_msg st in
  try_except
    (do mqtt_publish (ACCESS_TOPIC_STATUS cfg) msg then
     logging INFO "System status published: %s" [ADict msg])
    (fun e => logging ERROR "Error publishing system status: %s" [AExn (exn_text e)]).

Definition ALARM_TEXT : string :=
  "ALARM: the door has been opened with the alarm connected!!!".

Definition send_telegram_message (text : string) : M unit :=
  if String.eqb (TELEGRAM_TOKEN cfg) "" || String.eqb (TELEGRAM_CHATID cfg) ""
  then logging WARNING "Telegram not configured. Message not sent." []
  else
    try_except
      (let* response :=
         telegram_send_message env (TELEGRAM_CHATID cfg) (TELEGRAM_TOKEN cfg)
                               ALARM_TEXT in
       if Z.eqb (status_code response) 200
       then logging INFO "Telegram message sent successfully." []
       else logging ERROR "Error sending Telegram message: %s"
                    [AStr (response_text response)])
      (fun e => logging ERROR "Exception when sending message to Telegram: %s"
                        [AExn (exn_text e)]).

(** *** Timers and their callbacks *)

(** Starts the timer when the door is opened in armed mode. *)
Definition start_trigger_timer : M unit :=
  let* st := get_state in
  if negb (bool_decide (st = armed)) then ret tt
  else
    do set_state trigger_pending then
    do send_led_command LED_TRIGGER_PENDING then
    let* t := Timer_start (TRIGGER_TIME cfg) cb_trigger_alarm in
    set_trigger_timer (Some t).

(** Cancel the pending alarm timer. *)
Definition cancel_trigger_timer : M unit :=
  let* s := (fun s => (s, inr s)) in
  match trigger_timer s with
  | Some t =>
      do Timer_cancel t then
      set_trigger_timer None
  | None => ret tt
  end.

(** When the button is pressed in disarm mode. *)
Definition start_button_timer : M unit :=
  do set_state button_pending then
  do send_led_command LED_BUTTON_PENDING then
  let* t := Timer_start (TRIGGER_TIME cfg) cb_end_button_timer in
  set_button_timer (Some t).

(** Ends the period after pressing the button and arms the system. *)
Definition end_button_timer : M unit :=
  do set_state armed then
  do send_led_command LED_ARMED then
  do publish_system_state then
  logging INFO "End of ignore period. System armed." [].

(** Timer callback: the alarm is triggered if the door opening has not
    been cancelled. *)
Definition trigger_alarm : M unit :=
  let* st := get_state in
  if negb (bool_decide (st = trigger_pending)) then ret tt
  else
    do set_state alarm then
    do logging WARNING "Alarm activated! The alarm was not cancelled in time." [] then
    do send_led_command LED_ALARM then
    do send_telegram_message "Alarm: door opened without authorization." then
    let* t := Timer_start (ALARM_DURATION cfg) cb_reset_alarm in
    set_alarm_timer (Some t).

(** Reset the alarm and return to armed mode. *)
Definition reset_alarm : M unit :=
  do set_state armed then
  do send_led_command LED_ARMED then
  do publish_system_state then
  logging INFO "Alarm terminated. System re-armed." [].

(** *** Message handlers *)

(** Processes messages from the door sensor. *)
Definition process_door_message (data : json) : M unit :=
  let* has_contact := lift (contains "contact" data) in
  if negb has_contact then ret tt
  else
    let* door_closed := lift (getitem data "contact") in
    let* current_state := get_state in
    if bool_decide (current_state = armed) then
      if negb (truthy door_closed) then
        do logging INFO "Door open in armed mode. Starting alarm timer (%s s)"
                   [AInt (TRIGGER_TIME cfg)] then
        start_trigger_timer
      else
        logging INFO "Door closed in armed mode." []
    else
      logging DEBUG "Door open in mode '%s'. Ignored." [AState current_state].

(** [uid.lower()]: only a [str] has the method. *)
Definition lower (v : json) : Exn + string :=
  match v with
  | JStr s => inr (str_lower env s)
  | _ => inl AttributeError
  end.

(** [any(user["uid"].lower() == uid.lower() for user in users)]: the
    generator stops at the first match, and evaluates the left operand
    first. *)
Fixpoint any_user_matches (uid : json) (users : list json) : Exn + bool :=
  match users with
  | [] => inr false
  | user :: rest =>
      match getitem user "uid" with
      | inl e => inl e
      | inr u =>
          match lower u with
          | inl e => inl e
          | inr ul =>
              match lower uid with
              | inl e => inl e
              | inr l =>
                  if String.eqb ul l then inr true
                  else any_user_matches uid rest
              end
          end
      end
  end.

(** [k in data and data[k] == "ON"] *)
Definition is_button_press (data : json) : M bool :=
  let* has_key := lift (contains (ACCESS_BUTTON_PAYLOAD cfg) data) in
  if has_key then
    let* v := lift (getitem data (ACCESS_BUTTON_PAYLOAD cfg)) in
    ret (eq_str v "ON")
  else ret false.

(** ["PN532" in data and "UID" in data["PN532"]] *)
Definition has_uid (data : json) : M bool :=
  let* has_reader := lift (contains "PN532" data) in
  if has_reader then
    let* reader := lift (getitem data "PN532") in
    lift (contains "UID" reader)
  else ret false.

(** The three branches under [with self.state_lock] of a valid read. *)
Definition disarm_on_valid_read : M unit :=
  let* st := get_state in
  if bool_decide (st = trigger_pending) then
    do cancel_trigger_timer then
    do set_state disarmed then
    do send_led_command LED_DISARMED then
    do publish_system_state then
    logging INFO "Alarm cancelled by valid NFC. System disarmed." []
  else if bool_decide (st = alarm) then
    let* s := (fun s => (s, inr s)) in
    do match alarm_timer s with
       | Some t =>
           do Timer_cancel t then
           set_alarm_timer None
       | None => ret tt
       end then
    do set_state disarmed then
    do send_led_command LED_DISARMED then
    do publish_system_state then
    logging INFO "Alarm cancelled by valid NFC. System disarmed." []
  else
    do logging INFO "NFC read but system is not in alarm state (status: %s)"
               [AState st] then
    do set_state disarmed then
    do send_led_command LED_DISARMED then
    publish_system_state.

(** Processes access control messages (NFC or button). *)
Definition process_access_message (data : json) : M unit :=
  let* button := is_button_press data in
  if button then
    let* st := get_state in
    if bool_decide (st = disarmed) then
      do logging INFO "Button pressed in disarmed mode. Starting ignore period (%s s)"
                 [AInt (TRIGGER_TIME cfg)] then
      start_button_timer
    else ret tt
  else
    let* nfc := has_uid data in
    if nfc then
      let* reader := lift (getitem data "PN532") in
      let* uid := lift (getitem reader "UID") in
      do logging INFO "NFC card read. UID: %s" [AJson uid] then
      let* allowed := lift (any_user_matches uid (ALLOWED_USERS cfg)) in
      if allowed then
        do logging INFO "Access allowed for UID %s" [AJson uid] then
        disarm_on_valid_read
      else
        logging WARNING "Access denied for UID %s" [AJson uid]
    else ret tt.

(** Callback to receive a message. *)
Definition on_message (msg : Message) : M unit :=
  match payload msg with
  | Undecodable e => logging ERROR "Error decoding message: %s" [AExn e]
  | Decodes data =>
      do logging DEBUG "Message received in: %s: %s"
                 [AStr (topic msg); AJson data] then
      if String.eqb (topic msg) (DOOR_TOPIC cfg) then
        process_door_message data
      else if String.eqb (topic msg) (ACCESS_TOPIC cfg)
              || negb (String.eqb (ACCESS_BUTTON cfg) "") then
        process_access_message data
      else
        logging WARNING "Message in unknown topic: %s" [AStr (topic msg)]
  end.

(** What [start] does once connected, before it sleeps. *)
Definition start : M unit :=
  do publish_system_state then
  send_led_command LED_DISARMED.
End SecuritySystem.

(** ** Events: inbound messages and the two steps of a timer thread *)

Section Run.
Variable cfg : Config.
Variable env : Env.

Definition run_callback (f : Callback) : M unit :=
  match f with
  | cb_trigger_alarm => trigger_alarm cfg env
  | cb_end_button_timer => end_button_timer cfg env
  | cb_reset_alarm => reset_alarm cfg env
  end.

Definition with_timers (ts : list Timer) (s : Sys) : Sys :=
  mkSys (system_state s) (trigger_timer s) (button_timer s) (alarm_timer s)
        ts (trace s).

(** [self.finished.wait(self.interval)] returned: the thread either finds
    the flag set and ends, or goes on to call the function. *)
Definition timer_expire (id : nat) (s : Sys) : option Sys :=
  match timers s !! id with
  | Some t =>
      match phase t with
      | Waiting =>
          if finished t
          then Some (with_timers (alter (set_phase Done) id (timers s)) s)
          else Some (with_timers (alter (set_phase Committed) id (timers s)) s)
      | _ => None
      end
  | None => None
  end.

(** [self.function(); self.finished.set()] *)
Definition timer_call (id : nat) (s : Sys) : option Sys :=
  match timers s !! id with
  | Some t =>
      match phase t with
      | Committed =>
          let s' := after (run_callback (function t)) s in
          Some (with_timers
                  (alter (fun t => set_finished (set_phase Done t)) id (timers s'))
                  s')
      | _ => None
      end
  | None => None
  end.

Inductive Event : Type :=
| EvMessage (msg : Message)
| EvExpire (id : nat)
| EvCall (id : nat).

(** One event at a time: the body of a handler or of a callback runs as one
    step. A run therefore shows the object between bodies, not between the
    statements of a body; what is stated over [reachable] below either does
    not depend on that, or is also stated for every state. *)
Definition step (ev : Event) (s : Sys) : option Sys :=
  match ev with
  | EvMessage msg => Some (after (on_message cfg env msg) s)
  | EvExpire id => timer_expire id s
  | EvCall id => timer_call id s
  end.

Fixpoint run (evs : list Event) (s : Sys) : option Sys :=
  match evs with
  | [] => Some s
  | ev :: rest =>
      match step ev s with
      | Some s' => run rest s'
      | None => None
      end
  end.

Inductive reachable : Sys -> Prop :=
| reachable_start : reachable (after (start cfg env) __init__)
| reachable_step s ev s' :
    reachable s -> step ev s = Some s' -> reachable s'.
End Run.

(** ** Views of a trace *)

(** Everything but the log lines: publishes, HTTP posts, timer starts and
    cancels, in the order they were issued. *)
Definition is_action (e : Effect) : bool :=
  match e with
  | Log _ _ _ => false
  | _ => true
  end.

Definition actions (tr : list Effect) : list Effect := List.filter is_action tr.

Definition posts (tr : list Effect) : list (string * dict) :=
  omap (fun e => match e with HttpPost u d => Some (u, d) | _ => None end) tr.

(** [s] with [es] appended to its trace and nothing else touched. *)
Definition add_trace (s : Sys) (es : list Effect) : Sys :=
  mkSys (system_state s) (trigger_timer s) (button_timer s) (alarm_timer s)
        (timers s) (trace s ++ es).

(** ** Vocabulary of the properties *)

Section Vocabulary.
Variable cfg : Config.
Variable env : Env.

Definition telegram_configured : bool :=
  negb (String.eqb (TELEGRAM_TOKEN cfg) "" || String.eqb (TELEGRAM_CHATID cfg) "").

(** The one request the notifier makes. *)
Definition alarm_post : Effect :=
  HttpPost ("https://api.telegram.org/bot" ++ TELEGRAM_TOKEN cfg ++ "/sendMessage")%string
           [("chat_id", TELEGRAM_CHATID cfg); ("text", ALARM_TEXT)].

Definition notification : list Effect :=
  if telegram_configured then [alarm_post] else [].

(** *** A valid credential read *)

(** The timer a valid read cancels: the one its branch names. *)
Definition cancelled_timer (s : Sys) : option nat :=
  match system_state s with
  | trigger_pending => trigger_timer s
  | alarm => alarm_timer s
  | _ => None
  end.

Definition disarmed_by_read (s : Sys) (es : list Effect) : Sys :=
  mkSys disarmed
        (if bool_decide (system_state s = trigger_pending) then None
         else trigger_timer s)
        (button_timer s)
        (if bool_decide (system_state s = alarm) then None else alarm_timer s)
        (match cancelled_timer s with
         | Some t => alter set_finished t (timers s)
         | None => timers s
         end)
        (trace s ++ es).

Definition disarm_actions (s : Sys) : list Effect :=
  match cancelled_timer s with
  | Some t => [TimerCancelled t]
  | None => []
  end ++
  [MqttPublish (ACCESS_COMMAND cfg) LED_DISARMED;
   MqttPublish (ACCESS_TOPIC_STATUS cfg) [("system", "disarmed")]].

(** The [uid] of a well-formed users.json record. *)
Definition user_uid (user : json) : option string :=
  match user with
  | JObj fields =>
      match assoc "uid" fields with
      | Some (JStr n) => Some n
      | _ => None
      end
  | _ => None
  end.

Definition well_formed_users (users : list json) : Prop :=
  Forall (fun u => is_Some (user_uid u)) users.

(** [uid] matches some allow-list entry, case-insensitively. *)
Definition uid_allowed (users : list json) (uid : string) : Prop :=
  exists u n, u ∈ users /\ user_uid u = Some n /\
              str_lower env n = str_lower env uid.

(** The payload carries the button key with the value ["ON"]. *)
Definition button_on (d : list (string * json)) : bool :=
  match assoc (ACCESS_BUTTON_PAYLOAD cfg) d with
  | Some v => eq_str v "ON"
  | None => false
  end.

(** The UID of a reader payload [{"PN532": {"UID": uid}}]. *)
Definition card_uid (d : list (string * json)) : option string :=
  match assoc "PN532" d with
  | Some (JObj r) =>
      match assoc "UID" r with
      | Some (JStr u) => Some u
      | _ => None
      end
  | _ => None
  end.

(** What a message can do to the object: whatever the payload, a handler
    either leaves everything but the trace alone (also when it raises), or
    starts one of the two message-driven timers, or disarms. *)
Definition trigger_started (s : Sys) (es : list Effect) : Sys :=
  mkSys trigger_pending (Some (length (timers s))) (button_timer s)
        (alarm_timer s)
        (timers s ++ [mkTimer (TRIGGER_TIME cfg) cb_trigger_alarm false Waiting])
        (trace s ++ es).

Definition button_started (s : Sys) (es : list Effect) : Sys :=
  mkSys button_pending (trigger_timer s) (Some (length (timers s)))
        (alarm_timer s)
        (timers s ++ [mkTimer (TRIGGER_TIME cfg) cb_end_button_timer false Waiting])
        (trace s ++ es).

Inductive message_effect (s s' : Sys) : Prop :=
| me_ignored es :
    s' = add_trace s es -> actions es = [] -> message_effect s s'
| me_trigger es :
    system_state s = armed -> s' = trigger_started s es ->
    actions es = [MqttPublish (ACCESS_COMMAND cfg) LED_TRIGGER_PENDING;
                  TimerStarted (length (timers s))] ->
    message_effect s s'
| me_button es :
    system_state s = disarmed -> s' = button_started s es ->
    actions es = [MqttPublish (ACCESS_COMMAND cfg) LED_BUTTON_PENDING;
                  TimerStarted (length (timers s))] ->
    message_effect s s'
| me_disarm es :
    s' = disarmed_by_read s es -> actions es = disarm_actions s ->
    message_effect s s'.
End Vocabulary.

(** ** Timers and states along a run *)

(** The timer handles as the specification words their invariant: non-null
    only while the state is current. *)
Definition handles_only_while_current (s : Sys) : Prop :=
  (trigger_timer s <> None -> system_state s = trigger_pending) /\
  (button_timer s <> None -> system_state s = button_pending) /\
  (alarm_timer s <> None -> system_state s = alarm).

(** ** Vocabulary of the further properties *)

(** The object and its timers, without the trace. *)
Definition core (s : Sys)
  : SystemState * option nat * option nat * option nat * list Timer :=
  (system_state s, trigger_timer s, button_timer s, alarm_timer s, timers s).

(** Two computations that, started from the same core, end in the same core
    with the same outcome. *)
Definition oblivious {A} (c1 c2 : M A) : Prop :=
  forall s1 s2, core s1 = core s2 ->
                core (fst (c1 s1)) = core (fst (c2 s2)) /\
                snd (c1 s1) = snd (c2 s2).

(** A handle that is set names a timer of the table with callback [f]. *)
Definition names (f : Callback) (ts : list Timer) (h : option nat) : Prop :=
  forall id, h = Some id -> exists t, ts !! id = Some t /\ function t = f.

Definition handles_typed (s : Sys) : Prop :=
  names cb_trigger_alarm (timers s) (trigger_timer s) /\
  names cb_end_button_timer (timers s) (button_timer s) /\
  names cb_reset_alarm (timers s) (alarm_timer s).

(** A timer runs for [TRIGGER_TIME], and a button timer that has not ended
    was not cancelled. *)
Definition timer_ok (cfg : Config) (t : Timer) : Prop :=
  interval t = TRIGGER_TIME cfg /\
  (function t = cb_end_button_timer -> phase t <> Done -> finished t = false).

Definition tables_inv (cfg : Config) (s : Sys) : Prop :=
  handles_typed s /\ Forall (timer_ok cfg) (timers s).

(** A handler that, if it raises, raises a Python exception and has touched
    nothing but the log. *)
Definition fails_cleanly {A} (c : M A) (s : Sys) : Prop :=
  match c s with
  | (_, inr _) => True
  | (s', inl r) =>
      (exists e, r = PyExn e) /\
      exists es, s' = add_trace s es /\ actions es = []
  end.

(** What a timer callback does to the object. *)
Inductive callback_effect (cfg : Config) (f : Callback) (s s1 : Sys) : Prop :=
| ce_stale :
    f = cb_trigger_alarm -> system_state s <> trigger_pending -> s1 = s ->
    callback_effect cfg f s s1
| ce_alarm es :
    f = cb_trigger_alarm -> system_state s = trigger_pending ->
    s1 = mkSys alarm (trigger_timer s) (button_timer s)
               (Some (length (timers s)))
               (timers s ++ [mkTimer (ALARM_DURATION cfg) cb_reset_alarm false Waiting])
               (trace s ++ es) ->
    actions es =
    MqttPublish (ACCESS_COMMAND cfg) LED_ALARM
      :: notification cfg ++ [TimerStarted (length (timers s))] ->
    callback_effect cfg f s s1
| ce_armed es :
    f <> cb_trigger_alarm ->
    s1 = mkSys armed (trigger_timer s) (button_timer s) (alarm_timer s)
               (timers s) (trace s ++ es) ->
    actions es = [MqttPublish (ACCESS_COMMAND cfg) LED_ARMED;
                  MqttPublish (ACCESS_TOPIC_STATUS cfg) [("system", "armed")]] ->
    callback_effect cfg f s s1.

(** What an event does to the object, whatever the environment answers. *)
Inductive step_effect (cfg : Config) (ev : Event) (s s' : Sys) : Prop :=
| se_message msg :
    ev = EvMessage msg -> message_effect cfg s s' -> step_effect cfg ev s s'
| se_expire id t :
    ev = EvExpire id -> timers s !! id = Some t -> phase t = Waiting ->
    s' = with_timers
           (alter (set_phase (if finished t then Done else Committed)) id (timers s))
           s ->
    step_effect cfg ev s s'
| se_call id t s1 :
    ev = EvCall id -> timers s !! id = Some t -> phase t = Committed ->
    callback_effect cfg (function t) s s1 ->
    s' = with_timers
           (alter (fun t => set_finished (set_phase Done t)) id (timers s1)) s1 ->
    step_effect cfg ev s s'.

(** The value under [{"PN532": {"UID": ...}}], whatever its type. *)
Definition reader_uid (d : list (string * json)) : option json :=
  match assoc "PN532" d with
  | Some (JObj r) => assoc "UID" r
  | _ => None
  end.

(** A concrete deployment, used to run the model on examples. *)
Module Demo.
Definition ascii_lower (c : ascii) : ascii :=
  let n := nat_of_ascii c in
  if (65 <=? n)%nat && (n <=? 90)%nat then ascii_of_nat (n + 32) else c.

Fixpoint lower_ascii (s : string) : string :=
  match s with
  | EmptyString => EmptyString
  | String c s' => String (ascii_lower c) (lower_ascii s')
  end.

Definition cfg : Config :=
  mkConfig "zigbee2mqtt/door" "tele/access/SENSOR" "access/status"
           "cmnd/access/json" "tele/access/BUTTON" "Button1" 30
           "123456:token" "-100200300"
           [JObj [("name", JStr "Ana"); ("uid", JStr "04A1B2C3")];
            JObj [("name", JStr "Pau"); ("uid", JStr "9f00e1aa")]].

(** A broker and an HTTP API that answer normally. *)
Definition env : Env :=
  mkEnv lower_ascii (fun _ => None) (fun _ => inr (mkResponse 200 "ok")).

Definition door_open : Message :=
  mkMessage "zigbee2mqtt/door" (Decodes (JObj [("contact", JBool false)])).
Definition door_close : Message :=
  mkMessage "zigbee2mqtt/door" (Decodes (JObj [("contact", JBool true)])).
Definition button_press : Message :=
  mkMessage "tele/access/BUTTON" (Decodes (JObj [("Button1", JStr "ON")])).
Definition reader_payload (uid : string) : list (string * json) :=
  [("PN532", JObj [("UID", JStr uid)])].
Definition card (uid : string) : Message :=
  mkMessage "tele/access/SENSOR" (Decodes (JObj (reader_payload uid))).

(** A reader payload published on a topic the controller has no name for. *)
Definition foreign_card : Message :=
  mkMessage "garden/soil/SENSOR" (Decodes (JObj (reader_payload "04a1b2c3"))).

(** [cfg] with the Telegram variables left unset. *)
Definition cfg_no_telegram : Config :=
  mkConfig "zigbee2mqtt/door" "tele/access/SENSOR" "access/status"
           "cmnd/access/json" "tele/access/BUTTON" "Button1" 30 "" ""
           (ALLOWED_USERS cfg).

(** Armed, after one button cycle; timer 0 is the spent button timer. *)
Definition armed_state : Sys :=
  mkSys armed None (Some 0) None
        [mkTimer 30 cb_end_button_timer true Done] [].

(** The door was opened, and the trigger timer's thread is past its
    cancel check. *)
Definition pending_state : Sys :=
  mkSys trigger_pending (Some 1) (Some 0) None
        [mkTimer 30 cb_end_button_timer true Done;
         mkTimer 30 cb_trigger_alarm false Committed] [].

(** The example deployment after a button cycle and a door opening. *)
Definition door_opened : Sys :=
  default __init__
          (run cfg env [EvMessage button_press; EvExpire 0; EvCall 0;
                        EvMessage door_open]
               (after (start cfg env) __init__)).

(** A broker that refuses every publish and an HTTP API that times out. *)
Definition env_down : Env :=
  mkEnv lower_ascii (fun _ => Some "broker down") (fun _ => inl "timed out").

(** [cfg] with no button topic and no button payload key configured. *)
Definition cfg_no_button : Config :=
  mkConfig "zigbee2mqtt/door" "tele/access/SENSOR" "access/status"
           "cmnd/access/json" "" "" 30 "123456:token" "-100200300"
           (ALLOWED_USERS cfg).

(** [cfg] with an empty users.json array. *)
Definition cfg_no_users : Config :=
  mkConfig "zigbee2mqtt/door" "tele/access/SENSOR" "access/status"
           "cmnd/access/json" "tele/access/BUTTON" "Button1" 30
           "123456:token" "-100200300" [].

(** A second cycle in trigger_pending (timer 3) while the trigger timer of
    an earlier cycle (timer 1), cancelled by a card after its thread had
    passed the cancel check, is still about to call. *)
Definition second_cycle : Sys :=
  default __init__
          (run cfg env [EvMessage button_press; EvExpire 0; EvCall 0;
                        EvMessage door_open; EvExpire 1;
                        EvMessage (card "04a1b2c3");
                        EvMessage button_press; EvExpire 2; EvCall 2;
                        EvMessage door_open]
               (after (start cfg env) __init__)).

(** A valid card was read during the grace window: disarmed, with the
    button timer (timer 0) still waiting. *)
Definition read_in_grace : Sys :=
  default __init__
          (run cfg env [EvMessage button_press; EvMessage (card "04a1b2c3")]
               (after (start cfg env) __init__)).

(** A reader payload whose UID is a JSON number. *)
Definition numeric_uid_payload : list (string * json) :=
  [("PN532", JObj [("UID", JInt 42)])].
End Demo.

(** * Properties *)

Lemma actions_app (a b : list Effect) : actions (a ++ b) = actions a ++ actions b.
Proof. apply List.filter_app. Qed.

Lemma add_trace_nil (s : Sys) : add_trace s [] = s.
Proof. destruct s; unfold add_trace; simpl. by rewrite app_nil_r. Qed.

Ltac munfold :=
  unfold after, outcome, set_state, lift, bind, ret, raise, get_state, logging,
    emit, set_system_state, set_trigger_timer, set_button_timer,
    set_alarm_timer, Timer_start, Timer_cancel, try_except, add_trace in *.

Ltac msimpl :=
  cbn [fst snd system_state trigger_timer button_timer alarm_timer timers trace
       negb bool_decide] in *.

(** Closes [exists es, (s', r) = (s with trace ++ es, r) /\ actions es = l]
    once the handler has been run. *)
Ltac finish :=
  rewrite <- ?app_assoc; eexists; split; [reflexivity |];
  rewrite ?actions_app;
  repeat match goal with
         | H : actions _ = _ |- _ => rewrite H; clear H
         end;
  reflexivity.

Section Handlers.
Variable cfg : Config.
Variable env : Env.

Lemma send_led_command_run d s :
  exists es,
    send_led_command cfg env d s = (add_trace s es, inr tt) /\
    actions es = [MqttPublish (ACCESS_COMMAND cfg) d].
Proof.
  unfold send_led_command, mqtt_publish. munfold. msimpl.
  destruct (publish_outcome env _); msimpl; finish.
Qed.

Lemma publish_system_state_run s :
  exists es,
    publish_system_state cfg env s = (add_trace s es, inr tt) /\
    actions es =
    [MqttPublish (ACCESS_TOPIC_STATUS cfg) (state_msg (system_state s))].
Proof.
  unfold publish_system_state, mqtt_publish. munfold. msimpl.
  destruct (publish_outcome env _); msimpl; finish.
Qed.

Lemma send_telegram_message_run msg s :
  exists es,
    send_telegram_message cfg env msg s = (add_trace s es, inr tt) /\
    actions es = notification cfg.
Proof.
  unfold send_telegram_message, notification, telegram_configured, alarm_post.
  destruct (_ || _); simpl.
  - munfold. finish.
  - unfold telegram_send_message, requests_post. munfold. msimpl.
    destruct (post_outcome env _) as [e | r]; msimpl; [finish |].
    destruct (Z.eqb _ _); msimpl; finish.
Qed.

Ltac leaf :=
  match goal with
  | |- context [send_led_command ?c ?e ?d ?s] =>
      let es := fresh "es" in
      let H := fresh "Hes" in
      destruct (send_led_command_run d s) as (es & -> & H)
  | |- context [publish_system_state ?c ?e ?s] =>
      let es := fresh "es" in
      let H := fresh "Hes" in
      destruct (publish_system_state_run s) as (es & -> & H)
  | |- context [send_telegram_message ?c ?e ?m ?s] =>
      let es := fresh "es" in
      let H := fresh "Hes" in
      destruct (send_telegram_message_run m s) as (es & -> & H)
  end.

Ltac exec := munfold; msimpl; repeat (leaf; munfold; msimpl).

(** *** The timer callbacks *)

Lemma trigger_alarm_stale s :
  system_state s <> trigger_pending -> trigger_alarm cfg env s = (s, inr tt).
Proof.
  intros H. unfold trigger_alarm. munfold.
  by rewrite bool_decide_eq_false_2.
Qed.

Lemma trigger_alarm_run s :
  system_state s = trigger_pending ->
  exists es,
    trigger_alarm cfg env s =
    (mkSys alarm (trigger_timer s) (button_timer s)
           (Some (length (timers s)))
           (timers s ++ [mkTimer (ALARM_DURATION cfg) cb_reset_alarm false Waiting])
           (trace s ++ es), inr tt) /\
    actions es =
    MqttPublish (ACCESS_COMMAND cfg) LED_ALARM
      :: notification cfg ++ [TimerStarted (length (timers s))].
Proof.
  intros H. unfold trigger_alarm. munfold.
  rewrite bool_decide_eq_true_2 by done. exec. finish.
Qed.

Lemma end_button_timer_run s :
  exists es,
    end_button_timer cfg env s =
    (mkSys armed (trigger_timer s) (button_timer s) (alarm_timer s)
           (timers s) (trace s ++ es), inr tt) /\
    actions es =
    [MqttPublish (ACCESS_COMMAND cfg) LED_ARMED;
     MqttPublish (ACCESS_TOPIC_STATUS cfg) [("system", "armed")]].
Proof. unfold end_button_timer. exec. finish. Qed.

Lemma reset_alarm_run s :
  exists es,
    reset_alarm cfg env s =
    (mkSys armed (trigger_timer s) (button_timer s) (alarm_timer s)
           (timers s) (trace s ++ es), inr tt) /\
    actions es =
    [MqttPublish (ACCESS_COMMAND cfg) LED_ARMED;
     MqttPublish (ACCESS_TOPIC_STATUS cfg) [("system", "armed")]].
Proof. unfold reset_alarm. exec. finish. Qed.

Lemma start_trigger_timer_skip s :
  system_state s <> armed -> start_trigger_timer cfg env s = (s, inr tt).
Proof.
  intros H. unfold start_trigger_timer. munfold.
  by rewrite bool_decide_eq_false_2.
Qed.

Lemma start_trigger_timer_run s :
  system_state s = armed ->
  exists es,
    start_trigger_timer cfg env s =
    (mkSys trigger_pending (Some (length (timers s))) (button_timer s)
           (alarm_timer s)
           (timers s ++ [mkTimer (TRIGGER_TIME cfg) cb_trigger_alarm false Waiting])
           (trace s ++ es), inr tt) /\
    actions es =
    [MqttPublish (ACCESS_COMMAND cfg) LED_TRIGGER_PENDING;
     TimerStarted (length (timers s))].
Proof.
  intros H. unfold start_trigger_timer. munfold.
  rewrite bool_decide_eq_true_2 by done. exec. finish.
Qed.

Lemma start_button_timer_run s :
  exists es,
    start_button_timer cfg env s =
    (mkSys button_pending (trigger_timer s) (Some (length (timers s)))
           (alarm_timer s)
           (timers s ++ [mkTimer (TRIGGER_TIME cfg) cb_end_button_timer false Waiting])
           (trace s ++ es), inr tt) /\
    actions es =
    [MqttPublish (ACCESS_COMMAND cfg) LED_BUTTON_PENDING;
     TimerStarted (length (timers s))].
Proof. unfold start_button_timer. exec. finish. Qed.


(** *** A valid credential read *)

Lemma disarm_on_valid_read_run s :
  exists es,
    disarm_on_valid_read cfg env s = (disarmed_by_read s es, inr tt) /\
    actions es = disarm_actions cfg s.
Proof.
  unfold disarm_on_valid_read, cancel_trigger_timer, disarmed_by_read,
    disarm_actions, cancelled_timer.
  destruct s as [st tt bt at_ ts tr]; munfold; msimpl.
  destruct st; repeat case_bool_decide; try done;
    try destruct tt; try destruct at_; exec; finish.
Qed.

(** *** The allow-list *)

Lemma user_uid_getitem u n :
  user_uid u = Some n -> getitem u "uid" = inr (JStr n).
Proof.
  unfold user_uid, getitem. destruct u; try done.
  destruct (assoc "uid" fields) as [[]|]; try done. by intros [= ->].
Qed.

Lemma any_user_matches_allowed users uid :
  well_formed_users users -> uid_allowed env users uid ->
  any_user_matches env (JStr uid) users = inr true.
Proof.
  intros Hwf (u & n & Hin & Hu & Hl).
  induction Hwf as [| x xs [m Hm] _ IH]; [by apply elem_of_nil in Hin |].
  simpl. rewrite (user_uid_getitem _ _ Hm). simpl.
  destruct (String.eqb_spec (str_lower env m) (str_lower env uid)) as [_ | Hne];
    [done |].
  apply elem_of_cons in Hin as [-> | Hin]; [congruence | by apply IH].
Qed.

Lemma any_user_matches_denied users uid :
  well_formed_users users -> ~ uid_allowed env users uid ->
  any_user_matches env (JStr uid) users = inr false.
Proof.
  intros Hwf Hno.
  induction Hwf as [| x xs [m Hm] _ IH]; [done |].
  simpl. rewrite (user_uid_getitem _ _ Hm). simpl.
  destruct (String.eqb_spec (str_lower env m) (str_lower env uid)) as [He | _].
  - destruct Hno. exists x, m. split; [apply elem_of_cons; by left | done].
  - apply IH. intros (u & n & Hin & Hu & Hl). apply Hno.
    exists u, n. split; [apply elem_of_cons; by right | done].
Qed.

(** *** Access messages *)

Lemma is_button_press_obj d s :
  is_button_press cfg (JObj d) s = (s, inr (button_on cfg d)).
Proof.
  unfold is_button_press, button_on, contains, getitem. munfold.
  destruct (assoc _ d); simpl; reflexivity.
Qed.

Lemma has_uid_card d uid s :
  card_uid d = Some uid -> has_uid (JObj d) s = (s, inr true).
Proof.
  unfold has_uid, card_uid, contains, getitem. munfold.
  destruct (assoc "PN532" d) as [[]|]; try done; simpl.
  destruct (assoc "UID" fields) as [[]|]; try done.
Qed.

Lemma card_uid_getitem d uid :
  card_uid d = Some uid ->
  exists r, getitem (JObj d) "PN532" = inr r /\
            getitem r "UID" = inr (JStr uid).
Proof.
  unfold card_uid, getitem.
  destruct (assoc "PN532" d) as [[]|]; try done.
  destruct (assoc "UID" fields) as [[]|] eqn:E; try done.
  intros [= ->]. eexists. split; [done |]. simpl. by rewrite E.
Qed.

Lemma process_access_message_button d s :
  button_on cfg d = true ->
  process_access_message cfg env (JObj d) s =
  if bool_decide (system_state s = disarmed)
  then (do logging INFO "Button pressed in disarmed mode. Starting ignore period (%s s)"
                   [AInt (TRIGGER_TIME cfg)]
        then start_button_timer cfg env) s
  else (s, inr tt).
Proof.
  intros Hb. unfold process_access_message.
  unfold bind at 1. rewrite is_button_press_obj, Hb.
  unfold bind at 1, get_state, ret. by case_bool_decide.
Qed.

Lemma process_access_message_allowed d uid s :
  button_on cfg d = false -> card_uid d = Some uid ->
  well_formed_users (ALLOWED_USERS cfg) ->
  uid_allowed env (ALLOWED_USERS cfg) uid ->
  exists es,
    process_access_message cfg env (JObj d) s = (disarmed_by_read s es, inr tt) /\
    actions es = disarm_actions cfg s.
Proof.
  intros Hb Hc Hwf Hok. unfold process_access_message.
  unfold bind at 1. rewrite is_button_press_obj, Hb.
  unfold bind at 1. rewrite (has_uid_card _ _ _ Hc).
  destruct (card_uid_getitem _ _ Hc) as (r & -> & Hr).
  unfold bind at 1, lift at 1, ret at 1.
  rewrite Hr. unfold bind at 1, lift at 1, ret at 1.
  rewrite (any_user_matches_allowed _ _ Hwf Hok).
  unfold bind at 1, logging at 1, emit at 1.
  unfold bind at 1, lift at 1, ret at 1.
  unfold bind at 1, logging at 1, emit at 1.
  match goal with
  | |- context [disarm_on_valid_read _ _ ?s0] =>
      destruct (disarm_on_valid_read_run s0) as (es & -> & Hes)
  end.
  unfold disarmed_by_read, disarm_actions, cancelled_timer in *. msimpl.
  finish.
Qed.

Lemma process_access_message_denied d uid s :
  button_on cfg d = false -> card_uid d = Some uid ->
  well_formed_users (ALLOWED_USERS cfg) ->
  ~ uid_allowed env (ALLOWED_USERS cfg) uid ->
  process_access_message cfg env (JObj d) s =
  (add_trace s [Log INFO "NFC card read. UID: %s" [AJson (JStr uid)];
                Log WARNING "Access denied for UID %s" [AJson (JStr uid)]],
   inr tt).
Proof.
  intros Hb Hc Hwf Hno. unfold process_access_message.
  unfold bind at 1. rewrite is_button_press_obj, Hb.
  unfold bind at 1. rewrite (has_uid_card _ _ _ Hc).
  destruct (card_uid_getitem _ _ Hc) as (r & -> & Hr).
  unfold bind at 1, lift at 1, ret at 1.
  rewrite Hr. unfold bind at 1, lift at 1, ret at 1.
  rewrite (any_user_matches_denied _ _ Hwf Hno).
  munfold. msimpl. by rewrite <- app_assoc.
Qed.

(** *** Door messages *)

Lemma process_door_message_obj d v s :
  assoc "contact" d = Some v ->
  process_door_message cfg env (JObj d) s =
  if bool_decide (system_state s = armed) then
    if negb (truthy v) then
      (do logging INFO "Door open in armed mode. Starting alarm timer (%s s)"
                  [AInt (TRIGGER_TIME cfg)]
       then start_trigger_timer cfg env) s
    else logging INFO "Door closed in armed mode." [] s
  else logging DEBUG "Door open in mode '%s'. Ignored." [AState (system_state s)] s.
Proof.
  intros Hv. unfold process_door_message, contains, getitem.
  rewrite Hv. unfold lift, bind at 1, ret at 1.
  rewrite bool_decide_eq_true_2 by eauto. cbn [negb].
  unfold bind at 1, ret at 1. unfold bind at 1, get_state.
  by destruct (bool_decide _), (truthy v).
Qed.

(** *** What a message can do to the object

    Whatever the payload, a handler either leaves everything but the trace
    alone (also when it raises), or starts one of the two message-driven
    timers, or disarms. *)

Lemma message_effect_log s s' l f a :
  message_effect cfg (add_trace s [Log l f a]) s' -> message_effect cfg s s'.
Proof.
  destruct s as [st tt bt at_ ts tr].
  intros [es -> Hes | es Hst -> Hes | es Hst -> Hes | es -> Hes];
    unfold add_trace, trigger_started, button_started, disarmed_by_read,
      disarm_actions, cancelled_timer in *; msimpl; rewrite <- app_assoc.
  - eapply me_ignored; [reflexivity |]. by rewrite actions_app, Hes.
  - eapply me_trigger; [done | reflexivity |]. by rewrite actions_app, Hes.
  - eapply me_button; [done | reflexivity |]. by rewrite actions_app, Hes.
  - eapply me_disarm; [reflexivity |]. by rewrite actions_app, Hes.
Qed.

Lemma message_effect_refl s : message_effect cfg s s.
Proof. eapply me_ignored with (es := []); [by rewrite add_trace_nil | done]. Qed.

Lemma process_door_message_effect data s :
  message_effect cfg s (after (process_door_message cfg env data) s).
Proof.
  unfold after, process_door_message.
  unfold bind at 1.
  destruct (contains "contact" data) as [e | has]; simpl;
    [apply message_effect_refl |].
  destruct has; simpl; [| apply message_effect_refl].
  unfold bind at 1.
  destruct (getitem data "contact") as [e | v]; simpl;
    [apply message_effect_refl |].
  unfold bind at 1, get_state.
  case_bool_decide as Hst.
  - destruct (truthy v); simpl.
    + eapply message_effect_log, message_effect_refl.
    + unfold bind, logging, emit.
      match goal with
      | |- context [start_trigger_timer _ _ ?s0] =>
          destruct (start_trigger_timer_run s0 Hst) as (es & -> & Hes)
      end.
      eapply me_trigger with (es := _ :: es); [done | |].
      * unfold trigger_started. msimpl. by rewrite <- app_assoc.
      * done.
  - eapply message_effect_log, message_effect_refl.
Qed.

Lemma is_button_press_pure data s :
  exists r, is_button_press cfg data s = (s, r).
Proof.
  unfold is_button_press. munfold.
  destruct (contains _ data) as [e | []]; eauto.
  destruct (getitem data _); eauto.
Qed.

Lemma has_uid_pure data s : exists r, has_uid data s = (s, r).
Proof.
  unfold has_uid. munfold.
  destruct (contains _ data) as [e | []]; eauto.
  destruct (getitem data _) as [e | x]; eauto.
  destruct (contains _ x); eauto.
Qed.

Lemma process_access_message_effect data s :
  message_effect cfg s (after (process_access_message cfg env data) s).
Proof.
  unfold after, process_access_message.
  unfold bind at 1.
  destruct (is_button_press_pure data s) as [[e | button] ->];
    [apply message_effect_refl |].
  destruct button.
  - unfold bind at 1, get_state. case_bool_decide as Hst;
      [| apply message_effect_refl].
    unfold bind, logging, emit.
    match goal with
    | |- context [start_button_timer _ _ ?s0] =>
        destruct (start_button_timer_run s0) as (es & -> & Hes)
    end.
    eapply me_button with (es := _ :: es); [done | |].
    + unfold button_started. msimpl. by rewrite <- app_assoc.
    + done.
  - unfold bind at 1.
    destruct (has_uid_pure data s) as [[e | nfc] ->];
      [apply message_effect_refl |].
    destruct nfc; [| apply message_effect_refl].
    unfold bind at 1.
    destruct (getitem data "PN532") as [e | reader]; simpl;
      [apply message_effect_refl |].
    unfold bind at 1.
    destruct (getitem reader "UID") as [e | uid]; simpl;
      [apply message_effect_refl |].
    unfold bind at 1, logging at 1, emit at 1.
    eapply message_effect_log with (s := s). unfold add_trace at 1.
    unfold bind at 1.
    destruct (any_user_matches env uid (ALLOWED_USERS cfg)) as [e | allowed];
      simpl; [apply message_effect_refl |].
    destruct allowed; [| eapply message_effect_log, message_effect_refl].
    unfold bind at 1, logging at 1, emit at 1.
    eapply message_effect_log. unfold add_trace at 1. msimpl.
    match goal with
    | |- context [disarm_on_valid_read _ _ ?s0] =>
        destruct (disarm_on_valid_read_run s0) as (es & -> & Hes)
    end.
    by eapply me_disarm.
Qed.

Lemma on_message_effect msg s :
  message_effect cfg s (after (on_message cfg env msg) s).
Proof.
  unfold on_message. destruct (payload msg) as [e | data].
  - eapply message_effect_log, message_effect_refl.
  - unfold after, bind, logging, emit.
    eapply message_effect_log with (s := s). unfold add_trace at 1.
    destruct (String.eqb _ _); [apply process_door_message_effect |].
    destruct (_ || _); [apply process_access_message_effect |].
    eapply message_effect_log, message_effect_refl.
Qed.
End Handlers.

(** ** Runs *)

Section Invariant.
Variable cfg : Config.
Variable env : Env.

Lemma reachable_run evs s s' :
  reachable cfg env s -> run cfg env evs s = Some s' -> reachable cfg env s'.
Proof.
  revert s. induction evs as [| ev evs IH]; simpl; intros s Hs Hrun.
  - by injection Hrun as <-.
  - destruct (step cfg env ev s) as [s1 |] eqn:E; [| done].
    eapply IH; [| done]. by eapply reachable_step.
Qed.

End Invariant.

(** * The claims of the specification *)

Section Claims.
Variable cfg : Config.
Variable env : Env.

(** C8. The status that [publish_system_state] publishes is
    [{"system": "armed"}] exactly in the states armed, trigger_pending and
    alarm, and [{"system": "disarmed"}] exactly in the states disarmed and
    button_pending; the call publishes that dict on the status topic and
    returns. *)
Theorem published_status_by_state (s : Sys) :
  (exists es,
      publish_system_state cfg env s = (add_trace s es, inr tt) /\
      actions es =
      [MqttPublish (ACCESS_TOPIC_STATUS cfg) (state_msg (system_state s))]) /\
  (state_msg (system_state s) = [("system", "armed")] <->
   system_state s = armed \/ system_state s = trigger_pending \/
   system_state s = alarm) /\
  (state_msg (system_state s) = [("system", "disarmed")] <->
   system_state s = disarmed \/ system_state s = button_pending).
Proof.
  split; [apply publish_system_state_run |].
  destruct (system_state s); vm_compute; split; split;
    intros; try done; intuition congruence.
Qed.

(** C10. [send_telegram_message(text)] does the same whatever [text] is:
    with a token and a chat id configured it posts the fixed alarm text to
    the Telegram API (one request, then one log line), and when either is
    empty it sends nothing and only logs a warning. *)
Theorem send_telegram_message_fixed_text (msg : string) (s : Sys) :
  send_telegram_message cfg env msg s = send_telegram_message cfg env "" s /\
  (telegram_configured cfg = false <->
   TELEGRAM_TOKEN cfg = "" \/ TELEGRAM_CHATID cfg = "") /\
  if telegram_configured cfg then
    exists lvl fmt args,
      send_telegram_message cfg env msg s =
      (add_trace s
         [HttpPost ("https://api.telegram.org/bot" ++ TELEGRAM_TOKEN cfg
                    ++ "/sendMessage")%string
                   [("chat_id", TELEGRAM_CHATID cfg);
                    ("text", "ALARM: the door has been opened with the alarm connected!!!")];
          Log lvl fmt args], inr tt)
  else
    send_telegram_message cfg env msg s =
    (add_trace s [Log WARNING "Telegram not configured. Message not sent." []],
     inr tt).
Proof.
  split; [reflexivity |]. split.
  - unfold telegram_configured. rewrite negb_false_iff, orb_true_iff.
    by rewrite !String.eqb_eq.
  - unfold send_telegram_message, telegram_configured.
    destruct (_ || _); simpl; [reflexivity |].
    unfold telegram_send_message, requests_post. munfold. msimpl.
    destruct (post_outcome env _) as [e | r]; msimpl.
    + rewrite <- app_assoc. eauto.
    + destruct (Z.eqb _ _); msimpl; rewrite <- app_assoc; eauto.
Qed.

(** C1 (as amended). A valid credential read in trigger_pending cancels the
    trigger timer, clears the handle and disarms. If the trigger timer's
    callback runs after that (its thread was already past the cancel check),
    then at whatever later moment it runs, in any state [s2] other than
    trigger_pending, [trigger_alarm] re-reads the state and returns: no
    transition, no effect. Right after the read the state is disarmed and
    stays so. *)
Theorem stale_trigger_timer_is_inert (s : Sys) (d : list (string * json))
    (uid : string) :
  system_state s = trigger_pending ->
  button_on cfg d = false -> card_uid d = Some uid ->
  well_formed_users (ALLOWED_USERS cfg) ->
  uid_allowed env (ALLOWED_USERS cfg) uid ->
  let s1 := after (process_access_message cfg env (JObj d)) s in
  system_state s1 = disarmed /\
  trigger_timer s1 = None /\
  (forall t, trigger_timer s = Some t ->
             timers s1 = alter set_finished t (timers s)) /\
  trigger_alarm cfg env s1 = (s1, inr tt) /\
  (forall t tm,
      timers s1 !! t = Some tm -> function tm = cb_trigger_alarm ->
      phase tm = Committed ->
      exists s2,
        timer_call cfg env t s1 = Some s2 /\
        system_state s2 = disarmed /\ trace s2 = trace s1 /\
        trigger_timer s2 = None /\ button_timer s2 = button_timer s1 /\
        alarm_timer s2 = alarm_timer s1) /\
  (forall s2,
      system_state s2 <> trigger_pending ->
      trigger_alarm cfg env s2 = (s2, inr tt) /\
      forall t tm,
        timers s2 !! t = Some tm -> function tm = cb_trigger_alarm ->
        phase tm = Committed ->
        exists s3,
          timer_call cfg env t s2 = Some s3 /\
          system_state s3 = system_state s2 /\ trace s3 = trace s2 /\
          trigger_timer s3 = trigger_timer s2 /\
          button_timer s3 = button_timer s2 /\
          alarm_timer s3 = alarm_timer s2).
Proof.
  intros Hst Hb Hc Hwf Hok s1.
  destruct (process_access_message_allowed cfg env d uid s Hb Hc Hwf Hok)
    as (es & Hrun & _).
  assert (s1 = disarmed_by_read s es) as Hs1 by (unfold s1, after; by rewrite Hrun).
  assert (system_state s1 = disarmed) as Hd by by rewrite Hs1.
  assert (forall s2, system_state s2 <> trigger_pending ->
            forall t tm,
              timers s2 !! t = Some tm -> function tm = cb_trigger_alarm ->
              phase tm = Committed ->
              exists s3,
                timer_call cfg env t s2 = Some s3 /\
                system_state s3 = system_state s2 /\ trace s3 = trace s2 /\
                trigger_timer s3 = trigger_timer s2 /\
                button_timer s3 = button_timer s2 /\
                alarm_timer s3 = alarm_timer s2) as Hlate.
  { intros s2 Hne t tm Htm Hf Hph. unfold timer_call. rewrite Htm, Hph.
    unfold after. simpl. rewrite Hf. simpl.
    rewrite (trigger_alarm_stale cfg env s2 Hne). simpl.
    eexists. split; [reflexivity |]. by split_and!. }
  assert (system_state s1 <> trigger_pending) as Hne1 by by rewrite Hd.
  split_and!; try done.
  - rewrite Hs1. simpl. by rewrite bool_decide_eq_true_2.
  - intros t Ht. rewrite Hs1. unfold disarmed_by_read, cancelled_timer.
    simpl. by rewrite Hst, Ht.
  - by apply trigger_alarm_stale.
  - intros t tm Htm Hf Hph.
    destruct (Hlate s1 Hne1 t tm Htm Hf Hph)
      as (s2 & Hcall & Hst2 & Htr & Htt & Hbt & Hat).
    exists s2. split_and!; try done; try congruence.
    rewrite Htt, Hs1. simpl. by rewrite bool_decide_eq_true_2.
  - intros s2 Hne. split; [by apply trigger_alarm_stale | by apply Hlate].
Qed.

(** C3. A door message [{"contact": v}]: when the door is open ([v] falsy)
    the machine moves to trigger_pending if the state is armed, starting
    the trigger timer, and in every other state nothing but a debug line
    happens; when the door is closed the state, the handles and the timers
    are those of before, in every state: no timer is cancelled. *)
Theorem door_message_transitions (s : Sys) (d : list (string * json)) (v : json) :
  assoc "contact" d = Some v ->
  let s' := after (process_door_message cfg env (JObj d)) s in
  outcome (process_door_message cfg env (JObj d)) s = inr tt /\
  (truthy v = false -> system_state s = armed ->
   exists es,
     s' = trigger_started cfg s es /\
     system_state s' = trigger_pending /\
     actions es = [MqttPublish (ACCESS_COMMAND cfg) LED_TRIGGER_PENDING;
                   TimerStarted (length (timers s))]) /\
  (truthy v = false -> system_state s <> armed ->
   s' = add_trace s [Log DEBUG "Door open in mode '%s'. Ignored."
                         [AState (system_state s)]]) /\
  (truthy v = true ->
   exists l, is_action l = false /\ s' = add_trace s [l] /\
             system_state s' = system_state s /\ timers s' = timers s /\
             trigger_timer s' = trigger_timer s).
Proof.
  intros Hv s'. unfold s', after, outcome.
  rewrite (process_door_message_obj cfg env d v s Hv).
  case_bool_decide as Hst.
  - destruct (truthy v); cbn [negb].
    + split_and!; try done. intros _.
      exists (Log INFO "Door closed in armed mode." []). by split_and!.
    + unfold bind, logging, emit.
      match goal with
      | |- context [start_trigger_timer _ _ ?s0] =>
          destruct (start_trigger_timer_run cfg env s0 Hst) as (es & -> & Hes)
      end.
      split_and!; try done. intros _ _.
      exists (Log INFO "Door open in armed mode. Starting alarm timer (%s s)"
              [AInt (TRIGGER_TIME cfg)] :: es).
      split_and!; try done.
      unfold trigger_started. msimpl. by rewrite <- app_assoc.
  - destruct (truthy v); cbn [negb]; split_and!; try done.
    intros _.
    exists (Log DEBUG "Door open in mode '%s'. Ignored." [AState (system_state s)]).
    by split_and!.
Qed.

(** C5. A credential read [{"PN532": {"UID": uid}}] against a well-formed
    allow-list: if [uid] equals the uid of some entry after lower-casing
    both, the machine disarms from every state, publishes the indicator
    command power1 on / power2 off and then the status (after cancelling the
    trigger timer in trigger_pending, the alarm timer in alarm); if no entry
    matches, the read is denied: two log lines, nothing else changes. *)
Theorem credential_read_outcome (s : Sys) (d : list (string * json))
    (uid : string) :
  button_on cfg d = false -> card_uid d = Some uid ->
  well_formed_users (ALLOWED_USERS cfg) ->
  (uid_allowed env (ALLOWED_USERS cfg) uid ->
   exists es,
     process_access_message cfg env (JObj d) s = (disarmed_by_read s es, inr tt) /\
     system_state (disarmed_by_read s es) = disarmed /\
     actions es =
     match cancelled_timer s with
     | Some t => [TimerCancelled t]
     | None => []
     end ++
     [MqttPublish (ACCESS_COMMAND cfg)
                  [("power1", "on"); ("power2", "off"); ("buzzer", "1,1,1,1")];
      MqttPublish (ACCESS_TOPIC_STATUS cfg) [("system", "disarmed")]]) /\
  (~ uid_allowed env (ALLOWED_USERS cfg) uid ->
   process_access_message cfg env (JObj d) s =
   (add_trace s [Log INFO "NFC card read. UID: %s" [AJson (JStr uid)];
                 Log WARNING "Access denied for UID %s" [AJson (JStr uid)]],
    inr tt)).
Proof.
  intros Hb Hc Hwf. split.
  - intros Hok.
    destruct (process_access_message_allowed cfg env d uid s Hb Hc Hwf Hok)
      as (es & Hrun & Hes).
    exists es. by split_and!.
  - by apply process_access_message_denied.
Qed.

(** *** Cycles *)

(** A timer that is still waiting and was not cancelled fires: its thread
    commits, runs the callback and ends. *)
Lemma timer_fires id t s :
  timers s !! id = Some t -> phase t = Waiting -> finished t = false ->
  run cfg env [EvExpire id; EvCall id] s =
  Some (let s' := after (run_callback cfg env (function t))
                        (with_timers (alter (set_phase Committed) id (timers s)) s) in
        with_timers
          (alter (fun t => set_finished (set_phase Done t)) id (timers s')) s').
Proof.
  intros Ht Hph Hfin. simpl. unfold timer_expire. rewrite Ht, Hph, Hfin.
  unfold timer_call. simpl. rewrite list_lookup_alter_eq, Ht. simpl. done.
Qed.

Lemma posts_actions tr : posts (actions tr) = posts tr.
Proof.
  induction tr as [| e tr IH]; [done |].
  destruct e; simpl; try done; unfold posts in *; simpl; by rewrite ?IH.
Qed.

Lemma posts_notification :
  length (posts (notification cfg)) = if telegram_configured cfg then 1 else 0.
Proof. unfold notification. by destruct (telegram_configured cfg). Qed.

Lemma on_message_door_open d v s :
  system_state s = armed -> assoc "contact" d = Some v -> truthy v = false ->
  exists es,
    after (on_message cfg env (mkMessage (DOOR_TOPIC cfg) (Decodes (JObj d)))) s =
    trigger_started cfg s es /\
    actions es = [MqttPublish (ACCESS_COMMAND cfg) LED_TRIGGER_PENDING;
                  TimerStarted (length (timers s))].
Proof.
  intros Hst Hv Hopen. unfold after, on_message. simpl.
  unfold bind at 1, logging at 1, emit at 1. rewrite String.eqb_refl.
  rewrite (process_door_message_obj cfg env d v _ Hv). msimpl.
  rewrite bool_decide_eq_true_2 by done. rewrite Hopen. cbn [negb].
  unfold bind, logging, emit. msimpl.
  match goal with
  | |- context [start_trigger_timer _ _ ?s0] =>
      destruct (start_trigger_timer_run cfg env s0 Hst) as (es & -> & Hes)
  end.
  unfold trigger_started. msimpl. finish.
Qed.

Lemma process_door_message_not_armed data s :
  system_state s <> armed ->
  exists es,
    after (process_door_message cfg env data) s = add_trace s es /\
    actions es = [].
Proof.
  intros Hst. unfold after, process_door_message.
  unfold bind at 1.
  destruct (contains "contact" data) as [e | has]; simpl;
    [exists []; by rewrite add_trace_nil |].
  destruct has; simpl; [| exists []; by rewrite add_trace_nil].
  unfold bind at 1.
  destruct (getitem data "contact") as [e | v]; simpl;
    [exists []; by rewrite add_trace_nil |].
  unfold bind at 1, get_state.
  rewrite bool_decide_eq_false_2 by done. by eexists [_].
Qed.

(** Messages on the door topic, whatever they carry, leave a machine that
    is not armed where it is. *)
Lemma door_messages_ignored doors s :
  Forall (fun m => topic m = DOOR_TOPIC cfg) doors ->
  system_state s <> armed ->
  exists es,
    run cfg env (EvMessage <$> doors) s = Some (add_trace s es) /\
    actions es = [].
Proof.
  intros Hdoors. revert s.
  induction Hdoors as [| m ms Hm _ IH]; intros s Hst.
  - exists []. by rewrite add_trace_nil.
  - cbn [fmap list_fmap run step].
    assert (exists es, after (on_message cfg env m) s = add_trace s es /\
                       actions es = []) as (es1 & -> & Hes1).
    { unfold after, on_message. destruct (payload m) as [e | data].
      - by eexists [_].
      - unfold bind at 1, logging at 1, emit at 1.
        rewrite Hm, String.eqb_refl.
        match goal with
        | |- context [process_door_message _ _ _ ?s0] =>
            destruct (process_door_message_not_armed data s0 Hst)
              as (es & Hrun & Hes)
        end.
        unfold after in Hrun. rewrite Hrun. unfold add_trace. msimpl.
        finish. }
    destruct (IH (add_trace s es1) Hst) as (es2 & -> & Hes2).
    exists (es1 ++ es2). split.
    + unfold add_trace. msimpl. by rewrite app_assoc.
    + by rewrite actions_app, Hes1, Hes2.
Qed.

(** C4 (as amended). From armed, a door-open message starts the trigger
    timer and enters trigger_pending; when that timer fires with no
    credential read in between, the machine enters alarm, publishes the
    blinking indicator, posts the alarm text to Telegram exactly once when a
    token and a chat id are configured (and not at all otherwise) and starts
    the alarm timer; when the alarm timer fires the machine is armed again,
    with the indicator power1 off / power2 on and a status publish. *)
Theorem escalation_cycle (s : Sys) (d : list (string * json)) (v : json) :
  system_state s = armed -> assoc "contact" d = Some v -> truthy v = false ->
  let t := length (timers s) in
  exists s1 s2 s3 es2 es3,
    step cfg env (EvMessage (mkMessage (DOOR_TOPIC cfg) (Decodes (JObj d)))) s
    = Some s1 /\
    system_state s1 = trigger_pending /\ trigger_timer s1 = Some t /\
    run cfg env [EvExpire t; EvCall t] s1 = Some s2 /\
    system_state s2 = alarm /\ trace s2 = trace s1 ++ es2 /\
    actions es2 =
    MqttPublish (ACCESS_COMMAND cfg) LED_ALARM
      :: notification cfg ++ [TimerStarted (S t)] /\
    length (posts es2) = (if telegram_configured cfg then 1 else 0) /\
    alarm_timer s2 = Some (S t) /\
    timers s2 !! S t =
    Some (mkTimer (ALARM_DURATION cfg) cb_reset_alarm false Waiting) /\
    run cfg env [EvExpire (S t); EvCall (S t)] s2 = Some s3 /\
    system_state s3 = armed /\ trace s3 = trace s2 ++ es3 /\
    actions es3 =
    [MqttPublish (ACCESS_COMMAND cfg)
                 [("power1", "off"); ("power2", "on"); ("buzzer", "1,1,1,1")];
     MqttPublish (ACCESS_TOPIC_STATUS cfg) [("system", "armed")]].
Proof.
  intros Hst Hv Hopen t.
  destruct (on_message_door_open d v s Hst Hv Hopen) as (es1 & Hs1 & _).
  set (s1 := trigger_started cfg s es1).
  assert (timers s1 !! t =
          Some (mkTimer (TRIGGER_TIME cfg) cb_trigger_alarm false Waiting)) as Ht.
  { simpl. rewrite lookup_app_r by done. by rewrite Nat.sub_diag. }
  pose proof (timer_fires t _ s1 Ht eq_refl eq_refl) as Hfire2.
  cbn [function run_callback] in Hfire2.
  set (s1c := with_timers (alter (set_phase Committed) t (timers s1)) s1) in *.
  destruct (trigger_alarm_run cfg env s1c eq_refl) as (es2 & Hrun2 & Hes2).
  assert (length (timers s1c) = S t) as Hlen.
  { simpl. rewrite length_alter, length_app. simpl. unfold t. lia. }
  rewrite Hlen in Hrun2, Hes2.
  unfold after in Hfire2. rewrite Hrun2 in Hfire2. cbv zeta in Hfire2.
  cbn [fst timers] in Hfire2.
  match type of Hfire2 with _ = Some ?x => set (s2 := x) in * end.
  assert (timers s2 !! S t =
          Some (mkTimer (ALARM_DURATION cfg) cb_reset_alarm false Waiting)) as Ha.
  { unfold s2, with_timers. cbn [timers].
    rewrite list_lookup_alter_ne by lia.
    rewrite lookup_app_r by lia. by rewrite Hlen, Nat.sub_diag. }
  pose proof (timer_fires (S t) _ s2 Ha eq_refl eq_refl) as Hfire3.
  cbn [function run_callback] in Hfire3.
  match type of Hfire3 with
  | context [after _ ?x] =>
      destruct (reset_alarm_run cfg env x) as (es3 & Hrun3 & Hes3)
  end.
  unfold after in Hfire3. rewrite Hrun3 in Hfire3. cbv zeta in Hfire3.
  cbn [fst timers] in Hfire3.
  match type of Hfire3 with _ = Some ?x => set (s3 := x) in * end.
  exists s1, s2, s3, es2, es3.
  split_and!; try done.
  - cbn [step]. by rewrite Hs1.
  - rewrite <- posts_actions, Hes2. unfold posts. simpl.
    rewrite omap_app. simpl. rewrite app_nil_r. apply posts_notification.
Qed.

(** C6. A button payload starts the grace window exactly in disarmed and
    is ignored, without a trace, in every other state. From button_pending,
    door messages of any content change neither the state nor the button
    timer, and when that timer fires the machine is armed, with the
    indicator power1 off / power2 on and a status publish;
    [end_button_timer] itself arms from whatever state it finds. *)
Theorem button_cycle (s : Sys) (d : list (string * json)) (doors : list Message) :
  button_on cfg d = true ->
  Forall (fun m => topic m = DOOR_TOPIC cfg) doors ->
  (system_state s <> disarmed ->
   process_access_message cfg env (JObj d) s = (s, inr tt)) /\
  (system_state s = disarmed ->
   let t := length (timers s) in
   exists es1 es2 s3 es3,
     process_access_message cfg env (JObj d) s =
     (button_started cfg s es1, inr tt) /\
     system_state (button_started cfg s es1) = button_pending /\
     actions es1 = [MqttPublish (ACCESS_COMMAND cfg) LED_BUTTON_PENDING;
                    TimerStarted t] /\
     run cfg env (EvMessage <$> doors) (button_started cfg s es1) =
     Some (add_trace (button_started cfg s es1) es2) /\
     actions es2 = [] /\
     run cfg env [EvExpire t; EvCall t] (add_trace (button_started cfg s es1) es2)
     = Some s3 /\
     system_state s3 = armed /\
     trace s3 = (trace s ++ es1 ++ es2) ++ es3 /\
     actions es3 =
     [MqttPublish (ACCESS_COMMAND cfg)
                  [("power1", "off"); ("power2", "on"); ("buzzer", "1,1,1,1")];
      MqttPublish (ACCESS_TOPIC_STATUS cfg) [("system", "armed")]]) /\
  (forall s0, system_state (after (end_button_timer cfg env) s0) = armed).
Proof.
  intros Hb Hdoors. split_and!.
  - intros Hst. rewrite (process_access_message_button cfg env d s Hb).
    by rewrite bool_decide_eq_false_2.
  - intros Hst t. rewrite (process_access_message_button cfg env d s Hb).
    rewrite bool_decide_eq_true_2 by done.
    unfold bind, logging, emit.
    match goal with
    | |- context [start_button_timer _ _ ?s0] =>
        destruct (start_button_timer_run cfg env s0) as (es & -> & Hes)
    end.
    msimpl.
    set (es1 := Log INFO "Button pressed in disarmed mode. Starting ignore period (%s s)"
                    [AInt (TRIGGER_TIME cfg)] :: es).
    assert (trace s ++ es1 = (trace s ++ [Log INFO "Button pressed in disarmed mode. Starting ignore period (%s s)" [AInt (TRIGGER_TIME cfg)]]) ++ es) as Htr
      by by rewrite <- app_assoc.
    set (s1 := button_started cfg s es1).
    destruct (door_messages_ignored doors s1 Hdoors) as (es2 & Hrun2 & Hes2);
      [done |].
    set (s2 := add_trace s1 es2) in *.
    assert (timers s2 !! t =
            Some (mkTimer (TRIGGER_TIME cfg) cb_end_button_timer false Waiting)) as Ht.
    { simpl. rewrite lookup_app_r by done. by rewrite Nat.sub_diag. }
    pose proof (timer_fires t _ s2 Ht eq_refl eq_refl) as Hfire.
    cbn [function run_callback] in Hfire.
    match type of Hfire with
    | context [after _ ?x] =>
        destruct (end_button_timer_run cfg env x) as (es3 & Hrun3 & Hes3)
    end.
    unfold after in Hfire. rewrite Hrun3 in Hfire. cbv zeta in Hfire.
    cbn [fst timers] in Hfire.
    match type of Hfire with _ = Some ?x => set (s3 := x) in * end.
    exists es1, es2, s3, es3. split_and!; try done.
    + unfold button_started. by rewrite Htr.
    + unfold s3, s2, s1, with_timers, add_trace, button_started.
      cbn [trace]. by rewrite <- !app_assoc.
  - intros s0. unfold after.
    by destruct (end_button_timer_run cfg env s0) as (es & -> & _).
Qed.

(** *** Malformed payloads and routing *)

Lemma on_message_undecodable tp e s :
  on_message cfg env (mkMessage tp (Undecodable e)) s =
  (add_trace s [Log ERROR "Error decoding message: %s" [AExn e]], inr tt).
Proof. reflexivity. Qed.

(** An object without the ["contact"] key on the door topic: the debug line
    of [on_message] and nothing else. *)
Lemma on_message_door_missing_field d s :
  assoc "contact" d = None ->
  on_message cfg env (mkMessage (DOOR_TOPIC cfg) (Decodes (JObj d))) s =
  (add_trace s [Log DEBUG "Message received in: %s: %s"
                    [AStr (DOOR_TOPIC cfg); AJson (JObj d)]], inr tt).
Proof.
  intros Hd. unfold on_message. simpl. unfold bind at 1, logging, emit.
  rewrite String.eqb_refl. unfold process_door_message, contains.
  rewrite Hd. unfold lift, bind, ret.
  rewrite bool_decide_eq_false_2; [done |]. by intros [? ?].
Qed.

(** C9. [null] is valid JSON; on the door topic ["contact" not in data]
    then raises TypeError, and nothing in [on_message] catches it. *)
Theorem on_message_null_payload_raises (s : Sys) :
  on_message cfg env (mkMessage (DOOR_TOPIC cfg) (Decodes JNull)) s =
  (add_trace s [Log DEBUG "Message received in: %s: %s"
                    [AStr (DOOR_TOPIC cfg); AJson JNull]],
   inl (PyExn TypeError)).
Proof.
  unfold on_message. simpl. unfold bind at 1, logging, emit.
  by rewrite String.eqb_refl.
Qed.

(** With a button topic configured, the second test of the router is true
    for every topic: whatever is not on the door topic is handed to
    [process_access_message]. *)
Lemma on_message_routes_all_to_access msg data s :
  ACCESS_BUTTON cfg <> "" -> topic msg <> DOOR_TOPIC cfg ->
  payload msg = Decodes data ->
  on_message cfg env msg s =
  (do logging DEBUG "Message received in: %s: %s" [AStr (topic msg); AJson data]
   then process_access_message cfg env data) s.
Proof.
  intros Hbtn Htp Hdata. unfold on_message. rewrite Hdata.
  apply String.eqb_neq in Hbtn, Htp. rewrite Hbtn, Htp.
  by rewrite orb_true_r.
Qed.
End Claims.

(** ** The claims on the example deployment *)

Module Examples.
Import Demo.

Lemma demo_users_well_formed : well_formed_users (ALLOWED_USERS cfg).
Proof. repeat (constructor; [by eexists |]). constructor. Defined.

Lemma demo_card_allowed : uid_allowed env (ALLOWED_USERS cfg) "04a1b2c3".
Proof.
  exists (JObj [("name", JStr "Ana"); ("uid", JStr "04A1B2C3")]), "04A1B2C3".
  split_and!; [apply elem_of_cons; by left | reflexivity | reflexivity].
Defined.

(** C7. On the example deployment a reader payload published on a topic
    that is none of the three configured ones is not dropped: it is handled
    as a credential read and disarms the armed system. *)
Theorem foreign_topic_disarms :
  topic foreign_card <> DOOR_TOPIC cfg /\
  topic foreign_card <> ACCESS_TOPIC cfg /\
  topic foreign_card <> ACCESS_BUTTON cfg /\
  system_state armed_state = armed /\
  outcome (on_message cfg env foreign_card) armed_state = inr tt /\
  system_state (after (on_message cfg env foreign_card) armed_state) = disarmed /\
  trace (after (on_message cfg env foreign_card) armed_state) =
  [Log DEBUG "Message received in: %s: %s"
       [AStr "garden/soil/SENSOR"; AJson (JObj (reader_payload "04a1b2c3"))];
   Log INFO "NFC card read. UID: %s" [AJson (JStr "04a1b2c3")];
   Log INFO "Access allowed for UID %s" [AJson (JStr "04a1b2c3")];
   Log INFO "NFC read but system is not in alarm state (status: %s)"
       [AState armed];
   Log INFO "Status change: %s -> %s" [AState armed; AState disarmed];
   MqttPublish "cmnd/access/json" LED_DISARMED;
   Log DEBUG "LED command sent: %s" [ADict LED_DISARMED];
   MqttPublish "access/status" [("system", "disarmed")];
   Log INFO "System status published: %s" [ADict [("system", "disarmed")]]].
Proof. split_and!; try done; vm_compute; reflexivity. Qed.

(** C2, the claim as worded: after a complete button cycle the system is
    armed and [button_timer] still holds the spent timer, so a handle is
    non-null outside its state; and a valid credential read during
    button_pending disarms while the button timer is left waiting,
    uncancelled. *)
Lemma handles_outlive_their_states :
  ~ (forall s, reachable cfg env s -> handles_only_while_current s) /\
  exists s s',
    reachable cfg env s /\ system_state s = button_pending /\
    step cfg env (EvMessage (card "04a1b2c3")) s = Some s' /\
    system_state s' = disarmed /\
    timers s' !! 0 = Some (mkTimer 30 cb_end_button_timer false Waiting).
Proof.
  split.
  - intros H.
    assert (exists s, run cfg env [EvMessage button_press; EvExpire 0; EvCall 0]
                          (after (start cfg env) __init__) = Some s /\
                      button_timer s = Some 0 /\ system_state s = armed)
      as (s & Hrun & Hb & Hst) by (vm_compute; eauto).
    destruct (H s) as (_ & Hbt & _).
    + eapply reachable_run; [apply reachable_start | exact Hrun].
    + rewrite Hb, Hst in Hbt. by specialize (Hbt ltac:(done)).
  - assert (exists s, run cfg env [EvMessage button_press]
                          (after (start cfg env) __init__) = Some s /\
                      system_state s = button_pending /\
                      exists s', step cfg env (EvMessage (card "04a1b2c3")) s = Some s' /\
                                 system_state s' = disarmed /\
                                 timers s' !! 0 =
                                 Some (mkTimer 30 cb_end_button_timer false Waiting))
      as (s & Hrun & Hst & s' & Hstep & Hrest) by (vm_compute; eauto 10).
    exists s, s'. split_and!; try done; try apply Hrest.
    eapply reachable_run; [apply reachable_start | exact Hrun].
Qed.

(** C1, the claim as worded: on the example deployment the trigger timer of
    a first cycle is cancelled by a valid card after its thread has passed the
    cancel check; the system is disarmed, armed again by the button and the
    door is opened again; the callback of the cancelled timer then runs, finds
    trigger_pending, raises the alarm and sends the notification. *)
Lemma cancelled_trigger_timer_fires_into_next_cycle :
  exists s_tp s_dis s_tp2 s',
    run cfg env [EvMessage button_press; EvExpire 0; EvCall 0;
                 EvMessage door_open; EvExpire 1]
        (after (start cfg env) __init__) = Some s_tp /\
    system_state s_tp = trigger_pending /\ trigger_timer s_tp = Some 1 /\
    step cfg env (EvMessage (card "04a1b2c3")) s_tp = Some s_dis /\
    system_state s_dis = disarmed /\ trigger_timer s_dis = None /\
    (finished <$> timers s_dis !! 1) = Some true /\
    run cfg env [EvMessage button_press; EvExpire 2; EvCall 2;
                 EvMessage door_open] s_dis = Some s_tp2 /\
    system_state s_tp2 = trigger_pending /\ trigger_timer s_tp2 = Some 3 /\
    timer_call cfg env 1 s_tp2 = Some s' /\
    system_state s' = alarm /\
    length (posts (trace s')) = S (length (posts (trace s_tp2))).
Proof.
  eexists _, _, _, _.
  repeat (split; [vm_compute; reflexivity |]).
  vm_compute. reflexivity.
Qed.

(** C4, the claim as worded: with the Telegram variables unset the same
    cycle, run from start-up, reaches alarm and re-arms without a single
    notification. *)
Lemma escalation_without_notification :
  exists s0 s2 s3,
    run cfg_no_telegram env [EvMessage button_press; EvExpire 0; EvCall 0]
        (after (start cfg_no_telegram env) __init__) = Some s0 /\
    system_state s0 = armed /\
    run cfg_no_telegram env [EvMessage door_open; EvExpire 1; EvCall 1] s0
    = Some s2 /\
    system_state s2 = alarm /\ posts (trace s2) = [] /\
    run cfg_no_telegram env [EvExpire 2; EvCall 2] s2 = Some s3 /\
    system_state s3 = armed /\ posts (trace s3) = [].
Proof. vm_compute. eauto 12. Qed.

(** *** The theorems at concrete inputs *)

Lemma stale_trigger_timer_is_inert_witness :
  let s1 := after (process_access_message cfg env
                     (JObj (reader_payload "04a1b2c3"))) pending_state in
  system_state pending_state = trigger_pending /\
  system_state s1 = disarmed /\ trigger_timer s1 = None /\
  trigger_alarm cfg env s1 = (s1, inr tt) /\
  trigger_alarm cfg env armed_state = (armed_state, inr tt).
Proof.
  intros s1.
  destruct (stale_trigger_timer_is_inert cfg env pending_state
              (reader_payload "04a1b2c3") "04a1b2c3" eq_refl eq_refl eq_refl
              demo_users_well_formed demo_card_allowed)
    as (Hst & Hh & _ & Hstale & _ & Hlate).
  destruct (Hlate armed_state) as [Harmed _]; [discriminate |].
  split_and!; [reflexivity | exact Hst | exact Hh | exact Hstale | exact Harmed].
Defined.

Lemma door_message_transitions_witness :
  system_state armed_state = armed /\
  system_state (after (process_door_message cfg env
                         (JObj [("contact", JBool false)])) armed_state)
  = trigger_pending.
Proof.
  split; [reflexivity |].
  destruct (door_message_transitions cfg env armed_state
              [("contact", JBool false)] (JBool false) eq_refl)
    as (_ & Hopen & _).
  destruct (Hopen eq_refl eq_refl) as (es & _ & Hst & _). exact Hst.
Defined.

Lemma escalation_cycle_witness :
  exists s1 s2 s3,
    step cfg env (EvMessage door_open) armed_state = Some s1 /\
    system_state s1 = trigger_pending /\
    run cfg env [EvExpire 1; EvCall 1] s1 = Some s2 /\
    system_state s2 = alarm /\
    run cfg env [EvExpire 2; EvCall 2] s2 = Some s3 /\
    system_state s3 = armed.
Proof.
  destruct (escalation_cycle cfg env armed_state [("contact", JBool false)]
              (JBool false) eq_refl eq_refl eq_refl)
    as (s1 & s2 & s3 & es2 & es3 & H1 & Hst1 & _ & H2 & Hst2 & _ & _ & _ & _ &
        _ & H3 & Hst3 & _).
  exists s1, s2, s3.
  split_and!; [exact H1 | exact Hst1 | exact H2 | exact Hst2 | exact H3 | exact Hst3].
Defined.

Lemma credential_read_outcome_witness :
  system_state (after (process_access_message cfg env
                         (JObj (reader_payload "04a1b2c3"))) pending_state)
  = disarmed.
Proof.
  destruct (credential_read_outcome cfg env pending_state
              (reader_payload "04a1b2c3") "04a1b2c3" eq_refl eq_refl
              demo_users_well_formed) as [Hok _].
  destruct (Hok demo_card_allowed) as (es & Hrun & Hst & _).
  unfold after. rewrite Hrun. exact Hst.
Defined.

Lemma button_cycle_witness :
  process_access_message cfg env (JObj [("Button1", JStr "ON")]) armed_state
  = (armed_state, inr tt) /\
  exists es1 s3,
    fst (process_access_message cfg env (JObj [("Button1", JStr "ON")]) __init__)
    = button_started cfg __init__ es1 /\
    system_state s3 = armed.
Proof.
  split.
  - apply (button_cycle cfg env armed_state [("Button1", JStr "ON")] []
             eq_refl (List.Forall_nil _)).
    discriminate.
  - destruct (button_cycle cfg env __init__ [("Button1", JStr "ON")]
                [door_open; door_close] eq_refl) as (_ & Hcycle & _).
    + repeat constructor.
    + destruct (Hcycle eq_refl)
        as (es1 & es2 & s3 & es3 & Hrun & _ & _ & _ & _ & _ & Hst & _).
      exists es1, s3. rewrite Hrun. split; [reflexivity | exact Hst].
Defined.
End Examples.

(** * Further properties of the code *)

Section Further.
Variable cfg : Config.
Variable env : Env.

(** ** Payload and allow-list edge cases *)


(** X2. What [process_door_message] does with each shape of decoded payload:
    an object never raises; [None], booleans and numbers raise TypeError at
    the membership test; a string raises TypeError exactly when it contains
    ["contact"] (the test is a substring test, the subscript then fails), a
    list exactly when ["contact"] is one of its items; otherwise the message
    is dropped. Nothing is touched when it raises or drops. *)
Theorem door_payload_shapes (data : json) (s : Sys) :
  match data with
  | JObj d => outcome (process_door_message cfg env data) s = inr tt
  | JStr str =>
      process_door_message cfg env data s =
      (s, if substring_of "contact" str then inl (PyExn TypeError) else inr tt)
  | JArr items =>
      process_door_message cfg env data s =
      (s, if existsb (fun x => eq_str x "contact") items
          then inl (PyExn TypeError) else inr tt)
  | _ => process_door_message cfg env data s = (s, inl (PyExn TypeError))
  end.
Proof.
  destruct data as [| b | n | f | str | items | d]; try reflexivity.
  - unfold process_door_message, contains, getitem. munfold.
    by destruct (substring_of _ _).
  - unfold process_door_message, contains, getitem. munfold.
    by destruct (existsb _ _).
  - unfold outcome. destruct (assoc "contact" d) as [v |] eqn:Hv.
    + rewrite (process_door_message_obj cfg env d v s Hv).
      case_bool_decide as Hst; [| done].
      destruct (truthy v); [done |]. cbn [negb]. unfold bind, logging, emit.
      match goal with
      | |- context [start_trigger_timer _ _ ?s0] =>
          by destruct (start_trigger_timer_run cfg env s0 Hst) as (es & -> & _)
      end.
    + unfold process_door_message, contains. rewrite Hv. munfold.
      case_bool_decide as Hsome; [by destruct Hsome | done].
Qed.

Lemma has_uid_reader d v s :
  reader_uid d = Some v -> has_uid (JObj d) s = (s, inr true).
Proof.
  unfold has_uid, reader_uid, contains, getitem. munfold.
  destruct (assoc "PN532" d) as [[]|]; try done; simpl.
  intros Hv. by rewrite Hv.
Qed.

Lemma reader_uid_getitem d v :
  reader_uid d = Some v ->
  exists r, getitem (JObj d) "PN532" = inr r /\ getitem r "UID" = inr v.
Proof.
  unfold reader_uid, getitem.
  destruct (assoc "PN532" d) as [[]|]; try done.
  intros Hv. eexists. split; [done |]. simpl. by rewrite Hv.
Qed.

(** The access handler up to the allow-list test, for a reader payload. *)
Lemma process_access_message_reader d v s :
  button_on cfg d = false -> reader_uid d = Some v ->
  process_access_message cfg env (JObj d) s =
  (let* allowed := lift (any_user_matches env v (ALLOWED_USERS cfg)) in
   if allowed then
     do logging INFO "Access allowed for UID %s" [AJson v] then
     disarm_on_valid_read cfg env
   else logging WARNING "Access denied for UID %s" [AJson v])
    (add_trace s [Log INFO "NFC card read. UID: %s" [AJson v]]).
Proof.
  intros Hb Hv. unfold process_access_message.
  unfold bind at 1. rewrite is_button_press_obj, Hb.
  unfold bind at 1. rewrite (has_uid_reader _ _ _ Hv).
  destruct (reader_uid_getitem _ _ Hv) as (r & -> & Hr).
  unfold bind at 1, lift at 1, ret at 1.
  rewrite Hr. unfold bind at 1, lift at 1, ret at 1.
  unfold bind at 1, logging at 1, emit at 1. reflexivity.
Qed.

(** X4. With an empty users.json array every read is denied, and nothing is
    ever raised: the generator of [any] has no item, so [uid.lower()] is not
    evaluated even for a UID that is not a string. *)
Theorem empty_allow_list_denies (s : Sys) (d : list (string * json)) (v : json) :
  ALLOWED_USERS cfg = [] ->
  button_on cfg d = false -> reader_uid d = Some v ->
  process_access_message cfg env (JObj d) s =
  (add_trace s [Log INFO "NFC card read. UID: %s" [AJson v];
                Log WARNING "Access denied for UID %s" [AJson v]], inr tt).
Proof.
  intros Hu Hb Hv. rewrite (process_access_message_reader d v s Hb Hv), Hu.
  cbn [any_user_matches]. munfold. msimpl. by rewrite <- app_assoc.
Qed.

(** X5. A UID that is not a string (a JSON number, say) meets a non-empty
    allow-list: [uid.lower()] raises AttributeError after the "NFC card read"
    line, and the handler leaves state, handles and timers as they were. *)
Theorem non_string_uid_raises (s : Sys) (d : list (string * json)) (v : json)
    (u : json) (n : string) (rest : list json) :
  ALLOWED_USERS cfg = u :: rest -> user_uid u = Some n ->
  button_on cfg d = false -> reader_uid d = Some v ->
  (forall str, v <> JStr str) ->
  process_access_message cfg env (JObj d) s =
  (add_trace s [Log INFO "NFC card read. UID: %s" [AJson v]],
   inl (PyExn AttributeError)).
Proof.
  intros Hu Hn Hb Hv Hns.
  rewrite (process_access_message_reader d v s Hb Hv), Hu. simpl.
  rewrite (user_uid_getitem u n Hn). simpl.
  destruct v; try reflexivity. by destruct (Hns s0).
Qed.

(** X6. [any] stops at the first match: records after it are never looked
    at, however malformed; a record without a string ["uid"] that comes
    before any match makes the read raise. *)
Theorem allow_list_scan_order (uid : string) (good rest : list json) (bad : json) :
  well_formed_users good ->
  (uid_allowed env good uid ->
   any_user_matches env (JStr uid) (good ++ rest) = inr true) /\
  (~ uid_allowed env good uid -> user_uid bad = None ->
   exists e, any_user_matches env (JStr uid) (good ++ bad :: rest) = inl e).
Proof.
  intros Hwf. split.
  - intros (u & n & Hin & Hu & Hl).
    induction Hwf as [| x xs [m Hm] _ IH]; [by apply elem_of_nil in Hin |].
    simpl. rewrite (user_uid_getitem _ _ Hm). simpl.
    destruct (String.eqb_spec (str_lower env m) (str_lower env uid)) as [_ | Hne];
      [done |].
    apply elem_of_cons in Hin as [-> | Hin]; [congruence | by apply IH].
  - intros Hno Hbad.
    induction Hwf as [| x xs [m Hm] _ IH].
    + simpl. unfold user_uid in Hbad. unfold getitem.
      destruct bad as [| | | | | | fields]; eauto.
      destruct (assoc "uid" fields) as [w |]; eauto.
      destruct w; simpl; eauto. done.
    + simpl. rewrite (user_uid_getitem _ _ Hm). simpl.
      destruct (String.eqb_spec (str_lower env m) (str_lower env uid)) as [He | _].
      * destruct Hno. exists x, m. split; [apply elem_of_cons; by left | done].
      * apply IH. intros (u & n & Hin & Hu & Hl). apply Hno.
        exists u, n. split; [apply elem_of_cons; by right | done].
Qed.

(** X7. The allow-list test sees a UID only through [lower]: two UIDs with
    the same lower-case form get the same answer (or the same exception)
    from any allow-list, well-formed or not. *)
Theorem allow_list_case_insensitive (uid uid' : string) (users : list json) :
  str_lower env uid = str_lower env uid' ->
  any_user_matches env (JStr uid) users = any_user_matches env (JStr uid') users.
Proof.
  intros Hl. induction users as [| u users IH]; [done |].
  simpl. destruct (getitem u "uid") as [e | w]; [done |].
  destruct (lower env w) as [e | wl]; [done |].
  by rewrite Hl, IH.
Qed.

(** X8. [cancel_trigger_timer] clears the handle, never raises, and does
    nothing at all when the handle is already [None]; so a second call right
    after the first is a no-op. *)
Theorem cancel_trigger_timer_idempotent (s : Sys) :
  let s1 := after cancel_trigger_timer s in
  outcome cancel_trigger_timer s = inr tt /\
  trigger_timer s1 = None /\
  system_state s1 = system_state s /\
  (trigger_timer s = None -> s1 = s) /\
  cancel_trigger_timer s1 = (s1, inr tt).
Proof.
  destruct s as [st [t |] bt at_ ts tr]; unfold cancel_trigger_timer;
    munfold; msimpl; by split_and!.
Qed.

(** ** Routing *)

(** X15. Without a button topic ([ACCESS_BUTTON] empty, the default) the
    router does compare topics: a decodable message on a topic that is
    neither the door nor the access topic gets the debug line and the
    "unknown topic" warning, and no handler runs. *)
Theorem unknown_topic_dropped (msg : Message) (data : json) (s : Sys) :
  ACCESS_BUTTON cfg = "" ->
  topic msg <> DOOR_TOPIC cfg -> topic msg <> ACCESS_TOPIC cfg ->
  payload msg = Decodes data ->
  on_message cfg env msg s =
  (add_trace s [Log DEBUG "Message received in: %s: %s"
                    [AStr (topic msg); AJson data];
                Log WARNING "Message in unknown topic: %s" [AStr (topic msg)]],
   inr tt).
Proof.
  intros Hb Hd Ha Hp. unfold on_message. rewrite Hp, Hb.
  apply String.eqb_neq in Hd, Ha. rewrite Hd, Ha. simpl.
  munfold. msimpl. by rewrite <- app_assoc.
Qed.

(** X16. An object on the access route that is neither a button press nor
    a complete reader payload (no ["PN532"] key, or a ["PN532"] object
    without ["UID"]) is dropped silently: no log line, no change, no
    exception. *)
Theorem incomplete_access_payload_dropped (d : list (string * json)) (s : Sys) :
  button_on cfg d = false ->
  assoc "PN532" d = None \/
  (exists r, assoc "PN532" d = Some (JObj r) /\ assoc "UID" r = None) ->
  process_access_message cfg env (JObj d) s = (s, inr tt).
Proof.
  intros Hb Hd. unfold process_access_message.
  unfold bind at 1. rewrite is_button_press_obj, Hb.
  unfold has_uid, contains, getitem. munfold.
  destruct Hd as [-> | (r & -> & Hr)].
  - rewrite bool_decide_eq_false_2; [done |]. by intros [? ?].
  - rewrite bool_decide_eq_true_2 by eauto. rewrite Hr.
    rewrite bool_decide_eq_false_2; [done |]. by intros [? ?].
Qed.

(** ** Exceptions *)

Lemma fails_cleanly_ok {A} (c : M A) s s' a : c s = (s', inr a) -> fails_cleanly c s.
Proof. unfold fails_cleanly. by intros ->. Qed.

Lemma fails_cleanly_raise {A} (c : M A) s e :
  c s = (s, inl (PyExn e)) -> fails_cleanly c s.
Proof.
  unfold fails_cleanly. intros ->. split; [by eexists |].
  exists []. by rewrite add_trace_nil.
Qed.

Lemma fails_cleanly_log {A} (c : M A) s l f a :
  fails_cleanly c (add_trace s [Log l f a]) ->
  fails_cleanly (do logging l f a then c) s.
Proof.
  unfold fails_cleanly, bind, logging, emit.
  change (mkSys (system_state s) (trigger_timer s) (button_timer s)
                (alarm_timer s) (timers s) (trace s ++ [Log l f a]))
    with (add_trace s [Log l f a]).
  destruct (c (add_trace s [Log l f a])) as [s' [r | x]]; [| done].
  intros (He & es & -> & Hes). split; [done |].
  exists (Log l f a :: es). split; [| done].
  unfold add_trace. simpl. by rewrite <- app_assoc.
Qed.

Lemma is_button_press_lift data s :
  exists r : Exn + bool, is_button_press cfg data s = (s, snd (lift r s)).
Proof.
  unfold is_button_press. munfold.
  destruct (contains _ data) as [e | []].
  - by exists (inl e).
  - destruct (getitem data _) as [e | v]; [by exists (inl e) |].
    by exists (inr (eq_str v "ON")).
  - by exists (inr false).
Qed.

Lemma has_uid_lift data s :
  exists r : Exn + bool, has_uid data s = (s, snd (lift r s)).
Proof.
  unfold has_uid. munfold.
  destruct (contains _ data) as [e | []].
  - by exists (inl e).
  - destruct (getitem data _) as [e | x]; [by exists (inl e) |].
    destruct (contains _ x) as [e | b]; [by exists (inl e) | by exists (inr b)].
  - by exists (inr false).
Qed.

Lemma process_door_message_fails_cleanly data s :
  fails_cleanly (process_door_message cfg env data) s.
Proof.
  unfold fails_cleanly, process_door_message.
  unfold bind at 1.
  destruct (contains "contact" data) as [e | has]; simpl.
  { split; [by eexists |]. exists []. by rewrite add_trace_nil. }
  destruct has; simpl; [| done].
  unfold bind at 1.
  destruct (getitem data "contact") as [e | v]; simpl.
  { split; [by eexists |]. exists []. by rewrite add_trace_nil. }
  unfold bind at 1, get_state. case_bool_decide as Hst; [| done].
  destruct (truthy v); simpl; [done |].
  unfold bind, logging, emit.
  match goal with
  | |- context [start_trigger_timer _ _ ?s0] =>
      by destruct (start_trigger_timer_run cfg env s0 Hst) as (es & -> & _)
  end.
Qed.

Lemma process_access_message_fails_cleanly data s :
  fails_cleanly (process_access_message cfg env data) s.
Proof.
  unfold fails_cleanly, process_access_message.
  unfold bind at 1.
  destruct (is_button_press_lift data s) as [[e | button] ->]; simpl.
  { split; [by eexists |]. exists []. by rewrite add_trace_nil. }
  destruct button.
  { unfold bind at 1, get_state. case_bool_decide as Hst; [| done].
    unfold bind, logging, emit.
    match goal with
    | |- context [start_button_timer _ _ ?s0] =>
        by destruct (start_button_timer_run cfg env s0) as (es & -> & Hes)
    end. }
  unfold bind at 1.
  destruct (has_uid_lift data s) as [[e | nfc] ->]; simpl.
  { split; [by eexists |]. exists []. by rewrite add_trace_nil. }
  destruct nfc; [| done].
  unfold bind at 1.
  destruct (getitem data "PN532") as [e | reader]; simpl.
  { split; [by eexists |]. exists []. by rewrite add_trace_nil. }
  unfold bind at 1.
  destruct (getitem reader "UID") as [e | uid]; simpl.
  { split; [by eexists |]. exists []. by rewrite add_trace_nil. }
  unfold bind at 1, logging at 1, emit at 1.
  unfold bind at 1.
  destruct (any_user_matches env uid (ALLOWED_USERS cfg)) as [e | allowed]; simpl.
  { split; [by eexists |]. by eexists [_]. }
  destruct allowed; [| done].
  unfold bind at 1, logging at 1, emit at 1.
  match goal with
  | |- context [disarm_on_valid_read _ _ ?s0] =>
      by destruct (disarm_on_valid_read_run cfg env s0) as (es & -> & Hes)
  end.
Qed.

(** X3. Whatever the message, if [on_message] raises, the exception is a
    Python TypeError, KeyError or AttributeError from reading the payload or
    the allow-list (a transport failure never escapes), and it is raised
    before anything is done: state, handles and timers are untouched, nothing
    was published, only log lines were added. *)
Theorem on_message_raises_before_any_change (msg : Message) (s : Sys) :
  match on_message cfg env msg s with
  | (_, inr _) => True
  | (s', inl r) =>
      (exists e, r = PyExn e) /\
      exists es, s' = add_trace s es /\ actions es = []
  end.
Proof.
  change (fails_cleanly (on_message cfg env msg) s).
  unfold on_message. destruct (payload msg) as [e | data]; [done |].
  apply fails_cleanly_log.
  destruct (String.eqb _ _); [apply process_door_message_fails_cleanly |].
  destruct (_ || _); [apply process_access_message_fails_cleanly | done].
Qed.

(** ** The transition graph *)

Lemma callback_effect_of_run f s :
  callback_effect cfg f s (after (run_callback cfg env f) s).
Proof.
  unfold after. destruct f; simpl.
  - destruct (decide (system_state s = trigger_pending)) as [H | H].
    + destruct (trigger_alarm_run cfg env s H) as (es & -> & Hes).
      by eapply ce_alarm.
    + rewrite trigger_alarm_stale by done. by eapply ce_stale.
  - destruct (end_button_timer_run cfg env s) as (es & -> & Hes).
    by eapply ce_armed.
  - destruct (reset_alarm_run cfg env s) as (es & -> & Hes).
    by eapply ce_armed.
Qed.

Lemma step_effect_of_step ev s s' :
  step cfg env ev s = Some s' -> step_effect cfg ev s s'.
Proof.
  destruct ev as [msg | id | id]; simpl.
  - intros [= <-]. eapply se_message; [done | apply on_message_effect].
  - unfold timer_expire. destruct (timers s !! id) as [t |] eqn:Ht; [| done].
    destruct (phase t) eqn:Hph; try done. intros Hs'.
    eapply se_expire; [done | exact Ht | exact Hph |].
    destruct (finished t); congruence.
  - unfold timer_call. destruct (timers s !! id) as [t |] eqn:Ht; [| done].
    destruct (phase t) eqn:Hph; try done. intros [= <-].
    eapply se_call; [done | exact Ht | exact Hph | | reflexivity].
    apply callback_effect_of_run.
Qed.

(** X11. The transition graph, event by event. A message can only take
    armed to trigger_pending, disarmed to button_pending, or any state to
    disarmed; the end of a timer's wait changes no state; a timer callback
    can only take trigger_pending to alarm or any state to armed. So alarm
    is entered from trigger_pending only, and only by a timer. *)
Theorem transitions_by_event (ev : Event) (s s' : Sys) :
  step cfg env ev s = Some s' ->
  system_state s' = system_state s \/
  match ev with
  | EvMessage _ =>
      (system_state s = armed /\ system_state s' = trigger_pending) \/
      (system_state s = disarmed /\ system_state s' = button_pending) \/
      system_state s' = disarmed
  | EvExpire _ => False
  | EvCall _ =>
      (system_state s = trigger_pending /\ system_state s' = alarm) \/
      system_state s' = armed
  end.
Proof.
  intros Hstep. apply step_effect_of_step in Hstep.
  destruct Hstep as [msg -> Hm | id t -> _ _ -> | id t s1 -> _ _ Hc ->].
  - destruct Hm as [es -> _ | es Hst -> _ | es Hst -> _ | es -> _]; simpl; eauto.
  - by left.
  - destruct Hc as [_ _ -> | es _ Hst -> _ | es _ -> _]; simpl; eauto.
Qed.

(** X12. A step sends at most one Telegram request, and sends one only
    when a timer callback takes trigger_pending to alarm with the token and
    chat id configured; no message, and no other timer, ever notifies. *)
Theorem notification_only_on_alarm_entry (ev : Event) (s s' : Sys) :
  step cfg env ev s = Some s' ->
  exists es,
    trace s' = trace s ++ es /\
    (posts es = [] \/
     ((exists id, ev = EvCall id) /\
      system_state s = trigger_pending /\ system_state s' = alarm /\
      telegram_configured cfg = true /\
      posts es =
      [(("https://api.telegram.org/bot" ++ TELEGRAM_TOKEN cfg ++ "/sendMessage")%string,
        [("chat_id", TELEGRAM_CHATID cfg); ("text", ALARM_TEXT)])])).
Proof.
  intros Hstep. apply step_effect_of_step in Hstep.
  destruct Hstep as [msg -> Hm | id t -> _ _ -> | id t s1 -> _ _ Hc ->].
  - destruct Hm as [es -> Hes | es Hst -> Hes | es Hst -> Hes | es -> Hes];
      exists es; (split; [done |]); left;
      rewrite <- posts_actions, Hes; [done | done | done |].
    unfold disarm_actions. by destruct (cancelled_timer s).
  - exists []. simpl. rewrite app_nil_r. by split; [| left].
  - destruct Hc as [_ _ -> | es _ Hst -> Hes | es _ -> Hes].
    + exists []. simpl. rewrite app_nil_r. by split; [| left].
    + exists es. split; [done |]. rewrite <- posts_actions, Hes.
      unfold notification, alarm_post.
      destruct (telegram_configured cfg) eqn:Htg; [right | by left].
      split_and!; eauto.
    + exists es. split; [done |]. left. by rewrite <- posts_actions, Hes.
Qed.

(** X13. [trigger_alarm] tests the state, not which timer is calling: in
    trigger_pending, the callback of any trigger timer that is about to call
    raises the alarm, also a timer of an earlier cycle that was cancelled
    after its thread had passed the cancel check. The trigger timer of the
    current cycle is left as it is. *)
Theorem any_trigger_timer_raises_alarm (s : Sys) (id : nat) (t : Timer) :
  system_state s = trigger_pending ->
  timers s !! id = Some t -> function t = cb_trigger_alarm ->
  phase t = Committed ->
  exists s',
    timer_call cfg env id s = Some s' /\
    system_state s' = alarm /\
    trigger_timer s' = trigger_timer s /\
    forall h, h <> id -> h < length (timers s) ->
              timers s' !! h = timers s !! h.
Proof.
  intros Hst Ht Hf Hph. unfold timer_call. rewrite Ht, Hph, Hf.
  unfold after. simpl.
  destruct (trigger_alarm_run cfg env s Hst) as (es & -> & _).
  eexists. split; [reflexivity |]. simpl. split_and!; try done.
  intros h Hne Hlt. rewrite list_lookup_alter_ne by done.
  by rewrite lookup_app_l.
Qed.

(** ** The timer table along a run *)

Lemma names_None f (ts : list Timer) : names f ts None.
Proof. by intros id. Qed.

Lemma names_app f (ts : list Timer) x h : names f ts h -> names f (ts ++ [x]) h.
Proof.
  intros Hn id Hh. destruct (Hn id Hh) as (t & Ht & Hf).
  exists t. split; [by apply lookup_app_l_Some | done].
Qed.

Lemma names_new f (ts : list Timer) x :
  function x = f -> names f (ts ++ [x]) (Some (length ts)).
Proof.
  intros Hf id [= <-]. exists x. split; [| done].
  rewrite lookup_app_r by done. by rewrite Nat.sub_diag.
Qed.

Lemma names_alter f g (ts : list Timer) h i :
  (forall t, function (g t) = function t) ->
  names f ts h -> names f (alter g i ts) h.
Proof.
  intros Hg Hn id Hh. destruct (Hn id Hh) as (t & Ht & Hf).
  destruct (decide (i = id)) as [-> | Hne].
  - exists (g t). rewrite list_lookup_alter_eq, Ht. by rewrite Hg.
  - exists t. by rewrite list_lookup_alter_ne.
Qed.

Lemma tables_inv_alter g id s :
  (forall t, function (g t) = function t) ->
  (forall t, timers s !! id = Some t -> timer_ok cfg t -> timer_ok cfg (g t)) ->
  tables_inv cfg s ->
  tables_inv cfg (with_timers (alter g id (timers s)) s).
Proof.
  intros Hg Hok ((Ht & Hb & Ha) & Hall). split; [split_and! |]; simpl.
  - by apply names_alter.
  - by apply names_alter.
  - by apply names_alter.
  - by apply Forall_alter.
Qed.

Lemma tables_inv_message s s' :
  message_effect cfg s s' -> tables_inv cfg s -> tables_inv cfg s'.
Proof.
  intros Hm ((Ht & Hb & Ha) & Hall).
  destruct Hm as [es -> _ | es _ -> _ | es _ -> _ | es -> _].
  - done.
  - split; [split_and! |]; simpl.
    + by apply names_new.
    + by apply names_app.
    + by apply names_app.
    + apply Forall_app. split; [done |]. by apply Forall_singleton.
  - split; [split_and! |]; simpl.
    + by apply names_app.
    + by apply names_new.
    + by apply names_app.
    + apply Forall_app. split; [done |]. by apply Forall_singleton.
  - unfold disarmed_by_read, cancelled_timer.
    assert (forall f h, f <> cb_end_button_timer -> names f (timers s) h ->
              tables_inv cfg
                (with_timers
                   (match h with
                    | Some t => alter set_finished t (timers s)
                    | None => timers s
                    end) s)) as Hcancel.
    { intros f [t |] Hf Hn; [| by destruct s].
      apply tables_inv_alter; [done | | done].
      intros x Hx [Hi _]. split; [done |]. simpl. intros Hfx.
      destruct (Hn t eq_refl) as (x' & Hx' & Hf'). congruence. }
    destruct (system_state s) eqn:Hst; repeat case_bool_decide; try done;
      try (split; [split_and! |]; simpl; done).
    + destruct (Hcancel cb_trigger_alarm (trigger_timer s) ltac:(done) Ht)
        as ((_ & Hb' & Ha') & Hall').
      split; [split_and! |]; simpl; try done; apply names_None.
    + destruct (Hcancel cb_reset_alarm (alarm_timer s) ltac:(done) Ha)
        as ((Ht' & Hb' & _) & Hall').
      split; [split_and! |]; simpl; try done; apply names_None.
Qed.

Lemma tables_inv_callback f s s1 :
  callback_effect cfg f s s1 -> tables_inv cfg s -> tables_inv cfg s1.
Proof.
  intros Hc ((Ht & Hb & Ha) & Hall).
  destruct Hc as [_ _ -> | es _ _ -> _ | es _ -> _]; [done | | done].
  split; [split_and! |]; simpl.
  - by apply names_app.
  - by apply names_app.
  - by apply names_new.
  - apply Forall_app. split; [done |]. by apply Forall_singleton.
Qed.

Lemma tables_inv_step ev s s' :
  step_effect cfg ev s s' -> tables_inv cfg s -> tables_inv cfg s'.
Proof.
  intros [msg _ Hm | id t _ Ht Hph -> | id t s1 _ _ _ Hc ->] Hinv.
  - by eapply tables_inv_message.
  - apply tables_inv_alter; [done | | done].
    intros x Hx [Hi Hbtn]. assert (x = t) as -> by congruence.
    split; [done |]. destruct (finished t) eqn:Hfin; simpl; [done |].
    by intros.
  - apply tables_inv_alter; [done | |].
    + intros x _ [Hi _]. split; [done |]. simpl. done.
    + by eapply tables_inv_callback.
Qed.

Lemma tables_inv_reachable s : reachable cfg env s -> tables_inv cfg s.
Proof.
  induction 1 as [| s ev s' _ IH Hstep].
  - unfold after, start, bind.
    destruct (publish_system_state_run cfg env __init__) as (es & -> & _).
    match goal with
    | |- context [send_led_command _ _ ?d ?s0] =>
        destruct (send_led_command_run cfg env d s0) as (es' & -> & _)
    end.
    split; [split_and!; apply names_None | constructor].
  - eapply tables_inv_step; [| exact IH]. by apply step_effect_of_step.
Qed.

(** X9. Along every run each handle that is set names a timer that exists
    and whose callback is the handle's own ([trigger_timer] a [trigger_alarm]
    timer, [button_timer] an [end_button_timer] timer, [alarm_timer] a
    [reset_alarm] timer), and every timer ever started runs for
    [TRIGGER_TIME]: the alarm lasts as long as the trigger window. *)
Theorem handles_name_their_timers (s : Sys) :
  reachable cfg env s ->
  handles_typed s /\
  Forall (fun t => interval t = TRIGGER_TIME cfg) (timers s).
Proof.
  intros Hr. destruct (tables_inv_reachable s Hr) as [Hh Hall].
  split; [done |]. eapply Forall_impl; [exact Hall |]. by intros t [Hi _].
Qed.

(** X10. No code path cancels a button timer. Along every run a button
    timer that is still waiting has its [finished] flag clear, so when its
    window elapses it does call [end_button_timer], and the system is armed:
    whatever happened since the button press, a valid card read included. *)
Theorem waiting_button_timer_arms (s : Sys) (id : nat) (t : Timer) :
  reachable cfg env s ->
  timers s !! id = Some t -> function t = cb_end_button_timer ->
  phase t = Waiting ->
  finished t = false /\
  exists s', run cfg env [EvExpire id; EvCall id] s = Some s' /\
             system_state s' = armed.
Proof.
  intros Hr Ht Hf Hph.
  destruct (tables_inv_reachable s Hr) as [_ Hall].
  destruct (Forall_lookup_1 _ _ _ _ Hall Ht) as [_ Hbtn].
  assert (finished t = false) as Hfin by (apply Hbtn; [done | by rewrite Hph]).
  split; [done |].
  rewrite (timer_fires cfg env id t s Ht Hph Hfin). rewrite Hf.
  eexists. split; [reflexivity |]. cbv zeta. unfold after. simpl.
  by destruct (end_button_timer_run cfg env
                 (with_timers (alter (set_phase Committed) id (timers s)) s))
    as (es & -> & _).
Qed.

(** ** Timer handles, cancellation and firing *)

Lemma card_uid_reader_uid d uid :
  card_uid d = Some uid -> reader_uid d = Some (JStr uid).
Proof.
  unfold card_uid, reader_uid.
  destruct (assoc "PN532" d) as [[]|]; try done.
  destruct (assoc "UID" fields) as [[]|]; try done. by intros [= ->].
Qed.

(** The branch of a valid read for trigger_pending, statement by statement:
    the cancel comes first, then the state change, then the publishes. *)
Lemma disarm_from_trigger_pending s :
  system_state s = trigger_pending ->
  exists es,
    disarm_on_valid_read cfg env s =
    (mkSys disarmed None (button_timer s) (alarm_timer s)
           (match trigger_timer s with
            | Some t => alter set_finished t (timers s)
            | None => timers s
            end)
           (trace s ++
            match trigger_timer s with
            | Some t => [TimerCancelled t]
            | None => []
            end ++
            Log INFO "Status change: %s -> %s"
                [AState trigger_pending; AState disarmed] :: es), inr tt) /\
    actions es = [MqttPublish (ACCESS_COMMAND cfg) LED_DISARMED;
                  MqttPublish (ACCESS_TOPIC_STATUS cfg) [("system", "disarmed")]].
Proof.
  destruct s as [st tt bt at_ ts tr]. simpl. intros ->.
  unfold disarm_on_valid_read, cancel_trigger_timer. munfold. msimpl.
  rewrite bool_decide_eq_true_2 by done.
  destruct tt as [t |]; munfold; msimpl.
  - match goal with
    | |- context [send_led_command _ _ ?d ?s0] =>
        destruct (send_led_command_run cfg env d s0) as (es1 & -> & H1)
    end.
    munfold. msimpl.
    match goal with
    | |- context [publish_system_state _ _ ?s0] =>
        destruct (publish_system_state_run cfg env s0) as (es2 & -> & H2)
    end.
    munfold. msimpl.
    exists (es1 ++ es2 ++ [Log INFO "Alarm cancelled by valid NFC. System disarmed." []]).
    split; [by rewrite <- !app_assoc |].
    by rewrite !actions_app, H1, H2.
  - match goal with
    | |- context [send_led_command _ _ ?d ?s0] =>
        destruct (send_led_command_run cfg env d s0) as (es1 & -> & H1)
    end.
    munfold. msimpl.
    match goal with
    | |- context [publish_system_state _ _ ?s0] =>
        destruct (publish_system_state_run cfg env s0) as (es2 & -> & H2)
    end.
    munfold. msimpl.
    exists (es1 ++ es2 ++ [Log INFO "Alarm cancelled by valid NFC. System disarmed." []]).
    split; [by rewrite <- !app_assoc |].
    by rewrite !actions_app, H1, H2.
Qed.

(** The same for the branch of alarm and [alarm_timer]. *)
Lemma disarm_from_alarm s :
  system_state s = alarm ->
  exists es,
    disarm_on_valid_read cfg env s =
    (mkSys disarmed (trigger_timer s) (button_timer s) None
           (match alarm_timer s with
            | Some t => alter set_finished t (timers s)
            | None => timers s
            end)
           (trace s ++
            match alarm_timer s with
            | Some t => [TimerCancelled t]
            | None => []
            end ++
            Log INFO "Status change: %s -> %s"
                [AState alarm; AState disarmed] :: es), inr tt) /\
    actions es = [MqttPublish (ACCESS_COMMAND cfg) LED_DISARMED;
                  MqttPublish (ACCESS_TOPIC_STATUS cfg) [("system", "disarmed")]].
Proof.
  destruct s as [st tt bt at_ ts tr]. simpl. intros ->.
  unfold disarm_on_valid_read. munfold. msimpl.
  rewrite bool_decide_eq_false_2 by done.
  rewrite bool_decide_eq_true_2 by done.
  destruct at_ as [t |]; munfold; msimpl.
  - match goal with
    | |- context [send_led_command _ _ ?d ?s0] =>
        destruct (send_led_command_run cfg env d s0) as (es1 & -> & H1)
    end.
    munfold. msimpl.
    match goal with
    | |- context [publish_system_state _ _ ?s0] =>
        destruct (publish_system_state_run cfg env s0) as (es2 & -> & H2)
    end.
    munfold. msimpl.
    exists (es1 ++ es2 ++ [Log INFO "Alarm cancelled by valid NFC. System disarmed." []]).
    split; [by rewrite <- !app_assoc |].
    by rewrite !actions_app, H1, H2.
  - match goal with
    | |- context [send_led_command _ _ ?d ?s0] =>
        destruct (send_led_command_run cfg env d s0) as (es1 & -> & H1)
    end.
    munfold. msimpl.
    match goal with
    | |- context [publish_system_state _ _ ?s0] =>
        destruct (publish_system_state_run cfg env s0) as (es2 & -> & H2)
    end.
    munfold. msimpl.
    exists (es1 ++ es2 ++ [Log INFO "Alarm cancelled by valid NFC. System disarmed." []]).
    split; [by rewrite <- !app_assoc |].
    by rewrite !actions_app, H1, H2.
Qed.

(** A valid read, up to the branches under the lock. *)
Lemma process_access_message_valid d uid s :
  button_on cfg d = false -> card_uid d = Some uid ->
  well_formed_users (ALLOWED_USERS cfg) ->
  uid_allowed env (ALLOWED_USERS cfg) uid ->
  process_access_message cfg env (JObj d) s =
  disarm_on_valid_read cfg env
    (add_trace s [Log INFO "NFC card read. UID: %s" [AJson (JStr uid)];
                  Log INFO "Access allowed for UID %s" [AJson (JStr uid)]]).
Proof.
  intros Hb Hc Hwf Hok.
  rewrite (process_access_message_reader d (JStr uid) s Hb
             (card_uid_reader_uid d uid Hc)).
  rewrite (any_user_matches_allowed env _ _ Hwf Hok).
  munfold. msimpl. by rewrite <- app_assoc.
Qed.

(** C2 (as amended). Along every run each timer handle that is non-null
    names a timer started for its own state: [trigger_timer] a
    [trigger_alarm] timer, [button_timer] an [end_button_timer] timer,
    [alarm_timer] a [reset_alarm] timer. A valid credential read that leaves
    trigger_pending cancels the timer that [trigger_timer] names, when it is
    non-null, and sets the handle to [None], and only then changes the state;
    the same for alarm and [alarm_timer]. [trigger_alarm],
    [end_button_timer] and [reset_alarm] run as the callback of a timer that
    has fired, past its cancel check, and ends with it; a callback leaves
    [trigger_timer] and [button_timer] as they are, and [alarm_timer] as it is
    unless it enters alarm and assigns the new alarm timer: no handle is
    reset when a timer fires. *)
Theorem handles_cancelled_or_consumed (s : Sys) :
  (reachable cfg env s -> handles_typed s) /\
  (forall d uid,
      button_on cfg d = false -> card_uid d = Some uid ->
      well_formed_users (ALLOWED_USERS cfg) ->
      uid_allowed env (ALLOWED_USERS cfg) uid ->
      let s' := after (process_access_message cfg env (JObj d)) s in
      (system_state s = trigger_pending ->
       system_state s' = disarmed /\ trigger_timer s' = None /\
       timers s' = match trigger_timer s with
                   | Some t => alter set_finished t (timers s)
                   | None => timers s
                   end /\
       exists es,
         trace s' =
         trace s ++
         [Log INFO "NFC card read. UID: %s" [AJson (JStr uid)];
          Log INFO "Access allowed for UID %s" [AJson (JStr uid)]] ++
         match trigger_timer s with
         | Some t => [TimerCancelled t]
         | None => []
         end ++
         Log INFO "Status change: %s -> %s"
             [AState trigger_pending; AState disarmed] :: es) /\
      (system_state s = alarm ->
       system_state s' = disarmed /\ alarm_timer s' = None /\
       timers s' = match alarm_timer s with
                   | Some t => alter set_finished t (timers s)
                   | None => timers s
                   end /\
       exists es,
         trace s' =
         trace s ++
         [Log INFO "NFC card read. UID: %s" [AJson (JStr uid)];
          Log INFO "Access allowed for UID %s" [AJson (JStr uid)]] ++
         match alarm_timer s with
         | Some t => [TimerCancelled t]
         | None => []
         end ++
         Log INFO "Status change: %s -> %s"
             [AState alarm; AState disarmed] :: es)) /\
  (forall id s',
      timer_call cfg env id s = Some s' ->
      (exists t, timers s !! id = Some t /\ phase t = Committed /\
                 timers s' !! id = Some (set_finished (set_phase Done t))) /\
      trigger_timer s' = trigger_timer s /\
      button_timer s' = button_timer s /\
      (alarm_timer s' = alarm_timer s \/
       (system_state s = trigger_pending /\ system_state s' = alarm /\
        alarm_timer s' = Some (length (timers s))))).
Proof.
  split_and!.
  - intros Hr. by destruct (tables_inv_reachable s Hr).
  - intros d uid Hb Hc Hwf Hok s'. unfold s', after.
    rewrite (process_access_message_valid d uid s Hb Hc Hwf Hok).
    split; intros Hst.
    + match goal with
      | |- context [disarm_on_valid_read _ _ ?s0] =>
          destruct (disarm_from_trigger_pending s0 Hst) as (es & -> & _)
      end.
      simpl. split_and!; try done. exists es. by rewrite <- app_assoc.
    + match goal with
      | |- context [disarm_on_valid_read _ _ ?s0] =>
          destruct (disarm_from_alarm s0 Hst) as (es & -> & _)
      end.
      simpl. split_and!; try done. exists es. by rewrite <- app_assoc.
  - intros id s'. unfold timer_call.
    destruct (timers s !! id) as [t |] eqn:Ht; [| done].
    destruct (phase t) eqn:Hph; try done. intros [= <-].
    assert (id < length (timers s)) as Hlt by by eapply lookup_lt_Some.
    destruct (callback_effect_of_run (function t) s)
      as [_ _ -> | es _ Hst -> _ | es _ -> _]; simpl.
    + split_and!; eauto. exists t. by rewrite list_lookup_alter_eq, Ht.
    + split_and!; eauto. exists t.
      rewrite list_lookup_alter_eq, lookup_app_l by done. by rewrite Ht.
    + split_and!; eauto. exists t. by rewrite list_lookup_alter_eq, Ht.
Qed.
End Further.

(** ** Transport outcomes and the state machine *)

Lemma oblivious_ret {A} (a : A) : oblivious (ret a) (ret a).
Proof. by intros s1 s2 Hs. Qed.

Lemma oblivious_lift {A} (r : Exn + A) : oblivious (lift r) (lift r).
Proof. intros s1 s2 Hs. by destruct r. Qed.

Lemma oblivious_get_state : oblivious get_state get_state.
Proof.
  intros s1 s2 Hs. split; [done |]. simpl. unfold core in Hs. congruence.
Qed.

Lemma oblivious_emit e1 e2 : oblivious (emit e1) (emit e2).
Proof. by intros s1 s2 Hs. Qed.

Lemma oblivious_bind {A B} (c1 c2 : M A) (k1 k2 : A -> M B) :
  oblivious c1 c2 -> (forall a, oblivious (k1 a) (k2 a)) ->
  oblivious (bind c1 k1) (bind c2 k2).
Proof.
  intros Hc Hk s1 s2 Hs. unfold bind.
  destruct (Hc s1 s2 Hs) as [Hcore Hres].
  destruct (c1 s1) as [s1' r1], (c2 s2) as [s2' r2]. simpl in *. subst r2.
  destruct r1 as [e | a]; [done |]. by apply Hk.
Qed.

Section Oblivious.
Variable cfg : Config.
Variables env1 env2 : Env.
Hypothesis same_lower : forall x, str_lower env1 x = str_lower env2 x.

(** Two runs of a handler that each end normally in a state given by the
    same function of the core. *)
Ltac by_run H1 H2 :=
  destruct H1 as (?es & -> & _); destruct H2 as (?es & -> & _);
  split; [| done]; unfold core in *; simpl in *; congruence.

Lemma oblivious_send_led_command d :
  oblivious (send_led_command cfg env1 d) (send_led_command cfg env2 d).
Proof.
  intros s1 s2 Hs.
  by_run (send_led_command_run cfg env1 d s1) (send_led_command_run cfg env2 d s2).
Qed.

Lemma oblivious_start_trigger_timer :
  oblivious (start_trigger_timer cfg env1) (start_trigger_timer cfg env2).
Proof.
  intros s1 s2 Hs.
  assert (system_state s1 = system_state s2) as Hst
    by (unfold core in Hs; congruence).
  destruct (decide (system_state s1 = armed)) as [H1 | H1].
  - by_run (start_trigger_timer_run cfg env1 s1 H1)
           (start_trigger_timer_run cfg env2 s2 ltac:(congruence)).
  - rewrite !start_trigger_timer_skip by congruence. by split.
Qed.

Lemma oblivious_start_button_timer :
  oblivious (start_button_timer cfg env1) (start_button_timer cfg env2).
Proof.
  intros s1 s2 Hs.
  by_run (start_button_timer_run cfg env1 s1) (start_button_timer_run cfg env2 s2).
Qed.

Lemma oblivious_disarm_on_valid_read :
  oblivious (disarm_on_valid_read cfg env1) (disarm_on_valid_read cfg env2).
Proof.
  intros s1 s2 Hs.
  destruct (disarm_on_valid_read_run cfg env1 s1) as (es1 & -> & _).
  destruct (disarm_on_valid_read_run cfg env2 s2) as (es2 & -> & _).
  split; [| done]. unfold core, disarmed_by_read, cancelled_timer in *.
  simpl. injection Hs as -> -> -> -> ->. done.
Qed.

Lemma oblivious_run_callback f :
  oblivious (run_callback cfg env1 f) (run_callback cfg env2 f).
Proof.
  intros s1 s2 Hs.
  assert (system_state s1 = system_state s2) as Hst
    by (unfold core in Hs; congruence).
  destruct f; simpl.
  - destruct (decide (system_state s1 = trigger_pending)) as [H1 | H1].
    + by_run (trigger_alarm_run cfg env1 s1 H1)
             (trigger_alarm_run cfg env2 s2 ltac:(congruence)).
    + rewrite !trigger_alarm_stale by congruence. by split.
  - by_run (end_button_timer_run cfg env1 s1) (end_button_timer_run cfg env2 s2).
  - by_run (reset_alarm_run cfg env1 s1) (reset_alarm_run cfg env2 s2).
Qed.

Lemma any_user_matches_same_lower uid users :
  any_user_matches env1 uid users = any_user_matches env2 uid users.
Proof.
  assert (forall v, lower env1 v = lower env2 v) as Hl
    by (intros []; simpl; by rewrite ?same_lower).
  induction users as [| u users IH]; [done |].
  simpl. destruct (getitem u "uid") as [e | w]; [done |].
  by rewrite !Hl, IH.
Qed.

Lemma oblivious_process_door_message data :
  oblivious (process_door_message cfg env1 data) (process_door_message cfg env2 data).
Proof.
  unfold process_door_message.
  apply oblivious_bind; [apply oblivious_lift | intros has].
  destruct has; simpl; [| apply oblivious_ret].
  apply oblivious_bind; [apply oblivious_lift | intros v].
  apply oblivious_bind; [apply oblivious_get_state | intros st].
  case_bool_decide; [| apply oblivious_emit].
  destruct (truthy v); simpl; [apply oblivious_emit |].
  apply oblivious_bind; [apply oblivious_emit | intros _].
  apply oblivious_start_trigger_timer.
Qed.

Lemma oblivious_process_access_message data :
  oblivious (process_access_message cfg env1 data)
            (process_access_message cfg env2 data).
Proof.
  unfold process_access_message, is_button_press, has_uid.
  apply oblivious_bind.
  { apply oblivious_bind; [apply oblivious_lift | intros has].
    destruct has; [| apply oblivious_ret].
    apply oblivious_bind; [apply oblivious_lift | intros v].
    apply oblivious_ret. }
  intros button. destruct button.
  { apply oblivious_bind; [apply oblivious_get_state | intros st].
    case_bool_decide; [| apply oblivious_ret].
    apply oblivious_bind; [apply oblivious_emit | intros _].
    apply oblivious_start_button_timer. }
  apply oblivious_bind.
  { apply oblivious_bind; [apply oblivious_lift | intros has].
    destruct has; [| apply oblivious_ret].
    apply oblivious_bind; [apply oblivious_lift | intros r].
    apply oblivious_lift. }
  intros nfc. destruct nfc; [| apply oblivious_ret].
  apply oblivious_bind; [apply oblivious_lift | intros reader].
  apply oblivious_bind; [apply oblivious_lift | intros uid].
  apply oblivious_bind; [apply oblivious_emit | intros _].
  rewrite any_user_matches_same_lower.
  apply oblivious_bind; [apply oblivious_lift | intros allowed].
  destruct allowed; [| apply oblivious_emit].
  apply oblivious_bind; [apply oblivious_emit | intros _].
  apply oblivious_disarm_on_valid_read.
Qed.

Lemma oblivious_on_message msg :
  oblivious (on_message cfg env1 msg) (on_message cfg env2 msg).
Proof.
  unfold on_message. destruct (payload msg) as [e | data];
    [apply oblivious_emit |].
  apply oblivious_bind; [apply oblivious_emit | intros _].
  destruct (String.eqb _ _); [apply oblivious_process_door_message |].
  destruct (_ || _); [apply oblivious_process_access_message |].
  apply oblivious_emit.
Qed.

Lemma oblivious_step ev s1 s2 :
  core s1 = core s2 ->
  match step cfg env1 ev s1, step cfg env2 ev s2 with
  | Some a, Some b => core a = core b
  | None, None => True
  | _, _ => False
  end.
Proof.
  intros Hs.
  assert (timers s1 = timers s2) as Hts by (unfold core in Hs; congruence).
  destruct ev as [msg | id | id]; simpl.
  - apply (oblivious_on_message msg s1 s2 Hs).
  - unfold timer_expire. rewrite Hts.
    destruct (timers s2 !! id) as [t |]; [| done].
    destruct (phase t); try done.
    destruct (finished t); unfold core in *; simpl; congruence.
  - unfold timer_call. rewrite Hts.
    destruct (timers s2 !! id) as [t |]; [| done].
    destruct (phase t); try done.
    destruct (oblivious_run_callback (function t) s1 s2 Hs) as [Hc _].
    unfold after, core in *. simpl. congruence.
Qed.
End Oblivious.

(** X14. The state machine cannot be steered through the transport: run
    the same event from two situations with the same state, handles and
    timers, one with a broker and a Telegram API that answer and one where
    they raise or answer otherwise, and with any two log histories; then the
    event is enabled in both or in neither, the resulting state, handles and
    timers are the same, and a message raises the same exception or none in
    both. *)
Theorem transport_does_not_steer (cfg : Config) (env1 env2 : Env)
    (ev : Event) (s1 s2 : Sys) :
  (forall x, str_lower env1 x = str_lower env2 x) ->
  core s1 = core s2 ->
  match step cfg env1 ev s1, step cfg env2 ev s2 with
  | Some a, Some b => core a = core b
  | None, None => True
  | _, _ => False
  end /\
  forall msg,
    outcome (on_message cfg env1 msg) s1 = outcome (on_message cfg env2 msg) s2.
Proof.
  intros Hl Hs. split; [by apply oblivious_step |].
  intros msg. by destruct (oblivious_on_message cfg env1 env2 Hl msg s1 s2 Hs).
Qed.

(** ** The further properties on the example deployment *)

Module FurtherExamples.
Import Demo.

Lemma empty_allow_list_denies_witness :
  process_access_message cfg_no_users env (JObj numeric_uid_payload) armed_state =
  (add_trace armed_state
     [Log INFO "NFC card read. UID: %s" [AJson (JInt 42)];
      Log WARNING "Access denied for UID %s" [AJson (JInt 42)]], inr tt).
Proof.
  exact (empty_allow_list_denies cfg_no_users env armed_state numeric_uid_payload
           (JInt 42) eq_refl eq_refl eq_refl).
Defined.

Lemma non_string_uid_raises_witness :
  process_access_message cfg env (JObj numeric_uid_payload) armed_state =
  (add_trace armed_state [Log INFO "NFC card read. UID: %s" [AJson (JInt 42)]],
   inl (PyExn AttributeError)).
Proof.
  apply (non_string_uid_raises cfg env armed_state numeric_uid_payload (JInt 42)
           (JObj [("name", JStr "Ana"); ("uid", JStr "04A1B2C3")]) "04A1B2C3"
           [JObj [("name", JStr "Pau"); ("uid", JStr "9f00e1aa")]]
           eq_refl eq_refl eq_refl eq_refl).
  intros str. discriminate.
Defined.

Lemma allow_list_scan_order_witness :
  any_user_matches env (JStr "04a1b2c3") (ALLOWED_USERS cfg ++ [JNull]) = inr true.
Proof.
  apply (allow_list_scan_order env "04a1b2c3" (ALLOWED_USERS cfg) [JNull] JNull
           Examples.demo_users_well_formed).
  exact Examples.demo_card_allowed.
Defined.

Lemma allow_list_case_insensitive_witness :
  any_user_matches env (JStr "04A1b2C3") (ALLOWED_USERS cfg) =
  any_user_matches env (JStr "04a1B2c3") (ALLOWED_USERS cfg).
Proof.
  exact (allow_list_case_insensitive env "04A1b2C3" "04a1B2c3" (ALLOWED_USERS cfg)
           eq_refl).
Defined.

Lemma handles_name_their_timers_witness :
  handles_typed door_opened /\
  Forall (fun t => interval t = TRIGGER_TIME cfg) (timers door_opened).
Proof.
  apply (handles_name_their_timers cfg env door_opened).
  apply (reachable_run cfg env
           [EvMessage button_press; EvExpire 0; EvCall 0; EvMessage door_open]
           _ _ (reachable_start cfg env)).
  vm_compute. reflexivity.
Defined.

Lemma waiting_button_timer_arms_witness :
  system_state read_in_grace = disarmed /\
  exists s', run cfg env [EvExpire 0; EvCall 0] read_in_grace = Some s' /\
             system_state s' = armed.
Proof.
  split; [reflexivity |].
  apply (waiting_button_timer_arms cfg env read_in_grace 0
           (mkTimer 30 cb_end_button_timer false Waiting)).
  - apply (reachable_run cfg env
             [EvMessage button_press; EvMessage (card "04a1b2c3")]
             _ _ (reachable_start cfg env)).
    vm_compute. reflexivity.
  - reflexivity.
  - reflexivity.
  - reflexivity.
Defined.

Lemma transitions_by_event_witness :
  system_state (after (on_message cfg env door_open) armed_state)
  = system_state armed_state \/
  (system_state armed_state = armed /\
   system_state (after (on_message cfg env door_open) armed_state)
   = trigger_pending) \/
  (system_state armed_state = disarmed /\
   system_state (after (on_message cfg env door_open) armed_state)
   = button_pending) \/
  system_state (after (on_message cfg env door_open) armed_state) = disarmed.
Proof.
  exact (transitions_by_event cfg env (EvMessage door_open) armed_state _ eq_refl).
Defined.

Lemma notification_only_on_alarm_entry_witness :
  exists s' es,
    timer_call cfg env 1 pending_state = Some s' /\
    trace s' = trace pending_state ++ es /\ length (posts es) <= 1.
Proof.
  assert (exists s', timer_call cfg env 1 pending_state = Some s') as [s' Hs']
    by (vm_compute; eauto).
  destruct (notification_only_on_alarm_entry cfg env (EvCall 1) pending_state s' Hs')
    as (es & Htr & [Hp | (_ & _ & _ & _ & Hp)]);
    exists s', es; rewrite Hp; simpl; auto.
Defined.

Lemma any_trigger_timer_raises_alarm_witness :
  trigger_timer second_cycle = Some 3 /\
  (finished <$> timers second_cycle !! 1) = Some true /\
  exists s', timer_call cfg env 1 second_cycle = Some s' /\
             system_state s' = alarm.
Proof.
  split; [reflexivity |]. split; [reflexivity |].
  destruct (any_trigger_timer_raises_alarm cfg env second_cycle 1
              (mkTimer 30 cb_trigger_alarm true Committed)
              eq_refl eq_refl eq_refl eq_refl) as (s' & Hcall & Hst & _).
  exists s'. split; [exact Hcall | exact Hst].
Defined.

Lemma transport_does_not_steer_witness :
  match step cfg env (EvMessage door_open) armed_state,
        step cfg env_down (EvMessage door_open) armed_state with
  | Some a, Some b => core a = core b
  | None, None => True
  | _, _ => False
  end.
Proof.
  apply (transport_does_not_steer cfg env env_down (EvMessage door_open)
           armed_state armed_state (fun _ => eq_refl) eq_refl).
Defined.

Lemma unknown_topic_dropped_witness :
  on_message cfg_no_button env foreign_card armed_state =
  (add_trace armed_state
     [Log DEBUG "Message received in: %s: %s"
          [AStr "garden/soil/SENSOR"; AJson (JObj (reader_payload "04a1b2c3"))];
      Log WARNING "Message in unknown topic: %s" [AStr "garden/soil/SENSOR"]],
   inr tt).
Proof.
  apply (unknown_topic_dropped cfg_no_button env foreign_card
           (JObj (reader_payload "04a1b2c3")) armed_state eq_refl);
    [discriminate | discriminate | reflexivity].
Defined.

Lemma incomplete_access_payload_dropped_witness :
  process_access_message cfg env (JObj [("PN532", JObj [])]) armed_state
  = (armed_state, inr tt).
Proof.
  apply (incomplete_access_payload_dropped cfg env [("PN532", JObj [])]
           armed_state eq_refl).
  right. exists []. split; reflexivity.
Defined.

Lemma handles_cancelled_or_consumed_witness :
  system_state door_opened = trigger_pending /\
  handles_typed door_opened /\
  trigger_timer (after (process_access_message cfg env
                          (JObj (reader_payload "04a1b2c3"))) door_opened)
  = None.
Proof.
  destruct (handles_cancelled_or_consumed cfg env door_opened) as (Ha & Hb & _).
  split; [reflexivity |]. split.
  - apply Ha.
    apply (reachable_run cfg env
             [EvMessage button_press; EvExpire 0; EvCall 0; EvMessage door_open]
             _ _ (reachable_start cfg env)).
    vm_compute. reflexivity.
  - destruct (Hb (reader_payload "04a1b2c3") "04a1b2c3" eq_refl eq_refl
                Examples.demo_users_well_formed Examples.demo_card_allowed)
      as [Htp _].
    destruct (Htp eq_refl) as (_ & Hnone & _). exact Hnone.
Defined.
End FurtherExamples.
